(** * Portal Financiero: OTP-guarded ledger operations

    A shallow embedding of the Flask application's models
    ([app/models.py]) and of its request handlers ([app/auth/routes.py],
    [app/mfa/routes.py], [app/finance/routes.py]), followed by the
    properties of the confirmation workflow and of the ledger engine.

    Conventions of the embedding:
    - a handler is a function from the world it runs in (database,
      commit log, browser session) to a response and a new world;
    - everything a handler obtains from outside the program is an input:
      the clock ([datetime.utcnow()]), the random draw behind an OTP code,
      the configuration value [OTP_EXP_MINUTES], the result of the
      password check and of the e-mail token check;
    - e-mail delivery is best effort and leaves no trace in the state
      ([_send_resend_email] swallows every failure), so it is not part of
      the world;
    - a table is the list of its rows in insertion order, which is also
      the order in which a query without [order_by] returns them;
    - [Decimal] values are exact rationals; the rounding of the storage
      column [Numeric(14, 2)] and the special values (Infinity, NaN) lie
      outside the embedding;
    - texts that are only displayed (the [detail] line of a pending
      operation, e-mail bodies) are left out; the flashed messages are
      kept as tags, with their text in [flash_text]. *)

From Stdlib Require Import ZArith QArith String Ascii List Bool Lia Sorted Permutation.
From stdpp Require Import base gmap strings.
Import ListNotations.

Local Open Scope string_scope.
Local Open Scope Z_scope.

(** ** Python strings *)

(** Strings are byte strings; the functions below agree with Python's on
    ASCII text. *)
Module PyStr.

(** The ASCII characters [str.strip()] removes. *)
Definition is_space (c : ascii) : bool :=
  let n := nat_of_ascii c in
  ((9 <=? n)%nat && (n <=? 13)%nat) || ((28 <=? n)%nat && (n <=? 32)%nat).

Fixpoint lstrip (s : string) : string :=
  match s with
  | String c r => if is_space c then lstrip r else s
  | EmptyString => EmptyString
  end.

Fixpoint rstrip (s : string) : string :=
  match s with
  | String c r =>
      match rstrip r with
      | EmptyString => if is_space c then EmptyString else String c EmptyString
      | r' => String c r'
      end
  | EmptyString => EmptyString
  end.

(** [s.strip()] *)
Definition strip (s : string) : string := rstrip (lstrip s).

Definition lower_char (c : ascii) : ascii :=
  let n := nat_of_ascii c in
  if ((65 <=? n)%nat && (n <=? 90)%nat)%bool then ascii_of_nat (n + 32) else c.

(** [s.lower()], on ASCII letters. *)
Fixpoint lower (s : string) : string :=
  match s with
  | String c r => String (lower_char c) (lower r)
  | EmptyString => EmptyString
  end.

(** Truthiness of a string: [not s] holds for the empty string. *)
Definition nonempty (s : string) : bool :=
  match s with EmptyString => false | _ => true end.

(** [x or d] where [x] is a string or [None]. *)
Definition or_else (x : option string) (d : string) : string :=
  match x with
  | Some s => if nonempty s then s else d
  | None => d
  end.

(** [s or d] on strings. *)
Definition str_or (s d : string) : string := if nonempty s then s else d.

Definition is_digit (c : ascii) : bool :=
  let n := nat_of_ascii c in ((48 <=? n)%nat && (n <=? 57)%nat).

Definition digit_val (c : ascii) : Z := Z.of_nat (nat_of_ascii c) - 48.

(** Value of a run of decimal digits, most significant first; [None] when
    a character is not a digit. *)
Fixpoint digits_from (acc : Z) (s : string) : option Z :=
  match s with
  | EmptyString => Some acc
  | String c r =>
      if is_digit c then digits_from (10 * acc + digit_val c) r else None
  end.

Definition digits (s : string) : option Z := digits_from 0 s.

(** A non-empty run of digits. *)
Definition digits1 (s : string) : option Z :=
  if nonempty s then digits s else None.

Definition digit_char (d : Z) : ascii := ascii_of_nat (Z.to_nat (48 + d mod 10)).

(** [f"{n:06d}"] for [0 <= n <= 999999]. *)
Definition fmt06d (n : Z) : string :=
  String (digit_char (n / 100000))
    (String (digit_char (n / 10000))
       (String (digit_char (n / 1000))
          (String (digit_char (n / 100))
             (String (digit_char (n / 10))
                (String (digit_char n) EmptyString))))).

(** [s.replace(c, "")] for a single character. *)
Fixpoint remove_char (c : ascii) (s : string) : string :=
  match s with
  | String d r => if Ascii.eqb c d then remove_char c r else String d (remove_char c r)
  | EmptyString => EmptyString
  end.

(** Splits [s] at the first character satisfying [p]; the separator is
    dropped and reported. *)
Fixpoint split_at (p : ascii -> bool) (s : string) : string * option string :=
  match s with
  | EmptyString => (EmptyString, None)
  | String c r =>
      if p c then (EmptyString, Some r)
      else let '(a, b) := split_at p r in (String c a, b)
  end.

End PyStr.

(** ** Decimal numbers *)

Module PyDecimal.
Import PyStr.

(** [10 ** e] as a rational, for any integer exponent. *)
Definition pow10 (e : Z) : Q :=
  if 0 <=? e then inject_Z (10 ^ e) else (1 # Z.to_pos (10 ^ (- e)))%Q.

(** Optional sign in front of a numeric string: the sign and the rest. *)
Definition take_sign (s : string) : bool * string :=
  match s with
  | String "-" r => (true, r)
  | String "+" r => (false, r)
  | _ => (false, s)
  end.

(** [decimal-part]: [digits '.' [digits]] or [['.'] digits]; the
    coefficient and the number of fraction digits. *)
Definition decimal_part (s : string) : option (Z * Z) :=
  match split_at (Ascii.eqb ".") s with
  | (ip, None) =>
      match digits1 ip with Some n => Some (n, 0) | None => None end
  | (ip, Some fp) =>
      if nonempty ip || nonempty fp then
        match digits ip, digits fp with
        | Some n, Some f =>
            Some (n * 10 ^ Z.of_nat (String.length fp) + f,
                  Z.of_nat (String.length fp))
        | _, _ => None
        end
      else None
  end.

(** [exponent-part] after the indicator: [[sign] digits]. *)
Definition exponent_part (s : string) : option Z :=
  let '(neg, r) := take_sign s in
  match digits1 r with
  | Some e => Some (if neg then - e else e)
  | None => None
  end.

Definition is_indicator (c : ascii) : bool := Ascii.eqb c "e" || Ascii.eqb c "E".

(** [Decimal(s)] for the finite numeric strings of the [decimal] module:
    surrounding whitespace and underscores are dropped, then
    [[sign] decimal-part [exponent-part]] is read.  [None] stands for the
    exception raised on any other string. *)
Definition Decimal (s : string) : option Q :=
  let '(neg, body) := take_sign (remove_char "_" (strip s)) in
  let '(mant, ex) := split_at is_indicator body in
  match decimal_part mant with
  | None => None
  | Some (coef, scale) =>
      let e := match ex with
               | None => Some 0
               | Some x => exponent_part x
               end in
      match e with
      | None => None
      | Some e =>
          let c := if neg then - coef else coef in
          Some (inject_Z c * pow10 (e - scale))%Q
      end
  end.

(** Comparisons of decimals, as booleans. *)
Definition ltb (a b : Q) : bool := negb (Qle_bool b a).
Definition leb (a b : Q) : bool := Qle_bool a b.
Definition eqb (a b : Q) : bool := Qeq_bool a b.

End PyDecimal.

(** ** The models ([app/models.py]) *)

(** Timestamps are microseconds on the UTC clock. *)
Definition datetime := Z.

Record User := mkUser {
  u_id : Z;
  u_email : string;
  u_password_hash : string;
  u_email_verified : bool;
  u_created_at : datetime
}.

Record OtpCode := mkOtpCode {
  o_id : Z;
  o_user_id : Z;
  o_code : string;
  o_created_at : datetime;
  o_used : bool
}.

Record Account := mkAccount {
  a_id : Z;
  a_user_id : Z;
  a_bank_type : string;
  a_name : string;
  a_balance : Q
}.

Record Transaction := mkTransaction {
  t_id : Z;
  t_account_id : Z;
  t_date : datetime;
  t_description : string;
  t_amount : Q;
  t_type : string;
  t_counterparty_account_id : option Z;
  t_counterparty_email : option string
}.

(** The tables, each in insertion order.  Rows are never deleted. *)
Record DB := mkDB {
  users : list User;
  otp_codes : list OtpCode;
  accounts : list Account;
  transactions : list Transaction
}.

Definition empty_db : DB := mkDB [] [] [] [].

(** ** The browser session *)

(** [session["pending_operation"]]: the staged operation.  The [detail]
    text shown to the user is presentation only and is left out. *)
Record PendingOp := mkPendingOp {
  op_name : string;
  op_payload : gmap string (option string);
  op_title : string;
  op_created_at : datetime
}.

Record Session := mkSession {
  s_user_id : option Z;
  s_pending_otp_user_id : option Z;
  s_pending_operation : option PendingOp;
  s_pending_operation_otp_id : option Z
}.

Definition empty_session : Session := mkSession None None None None.

(** ** Responses *)

Inductive Endpoint :=
| auth_login | auth_register | mfa_verify_otp | landing
| finance_dashboard | finance_gestion | finance_confirmar_operacion.

Inductive Template :=
| tpl_register | tpl_email_verification_sent | tpl_email_verified_ok
| tpl_login | tpl_verify_otp | tpl_confirmar_operacion.

(** The messages passed to [flash], named after the failure or the success
    they report. *)
Inductive Flash :=
| LoginRequired | InvalidBankType | InvalidAlias | InvalidInitialBalance
| AccountCreated | SameAccount | InvalidAmount | AccountsNotFound
| InsufficientFunds | InternalTransferDone | RecipientEmailRequired
| SourceAccountNotFound | RecipientNotFound | RecipientHasNoAccount
| ExternalTransferDone | NoPendingOperation | CodeRequired
| OtpUsedOrMissing | OtpInvalid | OtpExpired | UnknownOperation
| OperationCancelled | NoPendingToResend | OtpResent
| OtpSentCreateAccount | OtpSentTransferInternal | OtpSentTransferExternal
| CredentialsRequired | EmailTaken | BadVerificationLink
| BadCredentials | EmailNotVerified | OtpSentLogin | LoggedOut
| LoginFirst | MfaCodeRequired | MfaOtpInvalid | MfaOtpExpired | MfaDone.

(** The text and the category of each message, as in the source. *)
Definition flash_text (f : Flash) : string * string :=
  match f with
  | LoginRequired => ("Debes iniciar sesión y completar el MFA.", "error")
  | InvalidBankType => ("Tipo de banco no válido.", "error")
  | InvalidAlias => ("El nombre o alias de la cuenta es obligatorio.", "error")
  | InvalidInitialBalance => ("El saldo inicial no es válido.", "error")
  | AccountCreated => ("Cuenta creada correctamente.", "success")
  | SameAccount => ("Debes seleccionar cuentas distintas para transferir.", "error")
  | InvalidAmount => ("El monto de la transferencia no es válido.", "error")
  | AccountsNotFound => ("No se encontraron las cuentas seleccionadas.", "error")
  | InsufficientFunds => ("Saldo insuficiente en la cuenta de origen.", "error")
  | InternalTransferDone => ("Transferencia interna realizada correctamente.", "success")
  | RecipientEmailRequired => ("Debes indicar el correo del destinatario.", "error")
  | SourceAccountNotFound => ("La cuenta de origen no existe o no te pertenece.", "error")
  | RecipientNotFound => ("No se encontró un usuario con ese correo.", "error")
  | RecipientHasNoAccount => ("El usuario destino no tiene cuentas registradas.", "error")
  | ExternalTransferDone => ("Transferencia enviada correctamente al usuario destino.", "success")
  | NoPendingOperation => ("No hay ninguna operación pendiente por confirmar.", "info")
  | CodeRequired => ("Debes ingresar el código OTP.", "error")
  | OtpUsedOrMissing => ("El código OTP ya fue utilizado o no es válido.", "error")
  | OtpInvalid => ("Código OTP inválido.", "error")
  | OtpExpired => ("El código OTP ha expirado. Reenvíalo para continuar.", "error")
  | UnknownOperation => ("Operación pendiente desconocida. Vuelve a intentarlo.", "error")
  | OperationCancelled => ("Operación cancelada.", "info")
  | NoPendingToResend => ("No hay ninguna operación pendiente para reenviar OTP.", "info")
  | OtpResent => ("Te reenviamos un nuevo código OTP a tu correo.", "info")
  | OtpSentCreateAccount => ("Te enviamos un código OTP para confirmar la creación de la cuenta.", "info")
  | OtpSentTransferInternal => ("Te enviamos un código OTP para confirmar la transferencia interna.", "info")
  | OtpSentTransferExternal => ("Te enviamos un código OTP para confirmar la transferencia.", "info")
  | CredentialsRequired => ("Correo y contraseña son obligatorios.", "error")
  | EmailTaken => ("Este correo ya está registrado.", "error")
  | BadVerificationLink => ("El enlace de verificación es inválido o ha expirado.", "error")
  | BadCredentials => ("Credenciales inválidas.", "error")
  | EmailNotVerified => ("Debes verificar tu correo antes de iniciar sesión.", "error")
  | OtpSentLogin => ("Te enviamos un código OTP a tu correo.", "info")
  | LoggedOut => ("Sesión cerrada correctamente.", "info")
  | LoginFirst => ("Inicia sesión primero.", "error")
  | MfaCodeRequired => ("Debes ingresar el código OTP.", "error")
  | MfaOtpInvalid => ("Código OTP inválido.", "error")
  | MfaOtpExpired => ("El código OTP ha expirado.", "error")
  | MfaDone => ("Autenticación MFA completada.", "success")
  end.

Inductive Body :=
| Redirect (e : Endpoint)
| Render (t : Template)
| Abort404.

(** A response: the message flashed on the way, if any, and the body. *)
Definition Response : Type := option Flash * Body.

Definition flash_redirect (f : Flash) (e : Endpoint) : Response := (Some f, Redirect e).

Inductive Method := GET | POST.

(** ** The world of a request *)

(** [db] is what the request's database session sees; [commits] holds the
    snapshot taken by every [db.session.commit()], newest first: these are
    the states other requests, or a restart, can observe. *)
Record World := mkWorld {
  db : DB;
  commits : list DB;
  session : Session
}.

(** What a request reads from outside the program. *)
Record Env := mkEnv {
  now : datetime;                 (* datetime.utcnow() *)
  rand : Z;                       (* the draw of random.randint(0, 999999) *)
  OTP_EXP_MINUTES : option Z      (* current_app.config, when set *)
}.

Definition set_db (d : DB) (w : World) : World := mkWorld d (commits w) (session w).
Definition set_session (s : Session) (w : World) : World := mkWorld (db w) (commits w) s.

(** [db.session.commit()] *)
Definition commit (w : World) : World := mkWorld (db w) (db w :: commits w) (session w).

(** ** Queries and row updates *)

(** The primary key given to a new row. *)
Definition next_id (ids : list Z) : Z := 1 + fold_right Z.max 0 ids.

(** How the database compares an integer column with a request string:
    the string is read as a decimal integer. *)
Definition sql_int (s : option string) : option Z :=
  match s with
  | Some s => PyStr.digits1 (PyStr.strip s)
  | None => None
  end.

(** [User.query.get(id)] *)
Definition User_get (d : DB) (id : option Z) : option User :=
  match id with
  | Some i => List.find (fun u => u_id u =? i) (users d)
  | None => None
  end.

(** [User.query.filter_by(email=e).first()] *)
Definition User_by_email (d : DB) (e : string) : option User :=
  List.find (fun u => String.eqb (u_email u) e) (users d).

(** [Account.query.filter_by(id=i, user_id=uid).first()] *)
Definition Account_by_id_user (d : DB) (i : option string) (uid : Z) : option Account :=
  match sql_int i with
  | Some n => List.find (fun a => (a_id a =? n) && (a_user_id a =? uid)) (accounts d)
  | None => None
  end.

(** [Account.query.filter_by(user_id=uid).first()] *)
Definition Account_first_of_user (d : DB) (uid : Z) : option Account :=
  List.find (fun a => a_user_id a =? uid) (accounts d).

(** [OtpCode.query.filter_by(id=i, user_id=uid).first()] *)
Definition OtpCode_by_id_user (d : DB) (i uid : Z) : option OtpCode :=
  List.find (fun o => (o_id o =? i) && (o_user_id o =? uid)) (otp_codes d).

(** [order_by(OtpCode.created_at.desc())]: a stable insertion sort, rows
    with the same timestamp stay in insertion order. *)
Fixpoint insert_desc (o : OtpCode) (l : list OtpCode) : list OtpCode :=
  match l with
  | [] => [o]
  | p :: r => if o_created_at p <=? o_created_at o then o :: l else p :: insert_desc o r
  end.

Definition order_by_created_at_desc (l : list OtpCode) : list OtpCode :=
  fold_right insert_desc [] l.

(** [OtpCode.query.filter_by(user_id=uid, code=c, used=False)
      .order_by(OtpCode.created_at.desc()).first()] *)
Definition OtpCode_latest_unused (d : DB) (uid : Z) (c : string) : option OtpCode :=
  head (order_by_created_at_desc
          (List.filter (fun o => (o_user_id o =? uid) && String.eqb (o_code o) c && negb (o_used o))
             (otp_codes d))).

(** [OtpCode(user_id=uid, code=c)] as the database stores it: the primary
    key is the next one, [created_at] and [used] take their defaults. *)
Definition new_otp (e : Env) (d : DB) (uid : Z) (c : string) : OtpCode :=
  mkOtpCode (next_id (map o_id (otp_codes d))) uid c (now e) false.

Definition add_otp (o : OtpCode) (d : DB) : DB :=
  mkDB (users d) (otp_codes d ++ [o]) (accounts d) (transactions d).

Definition add_user (u : User) (d : DB) : DB :=
  mkDB (users d ++ [u]) (otp_codes d) (accounts d) (transactions d).

Definition add_account (a : Account) (d : DB) : DB :=
  mkDB (users d) (otp_codes d) (accounts d ++ [a]) (transactions d).

Definition add_all_transactions (ts : list Transaction) (d : DB) : DB :=
  mkDB (users d) (otp_codes d) (accounts d) (transactions d ++ ts).

(** [otp.used = True] on the row whose primary key is [i]. *)
Definition mark_used (i : Z) (d : DB) : DB :=
  mkDB (users d)
       (map (fun o => if o_id o =? i
                      then mkOtpCode (o_id o) (o_user_id o) (o_code o) (o_created_at o) true
                      else o) (otp_codes d))
       (accounts d) (transactions d).

(** [user.email_verified = True] *)
Definition mark_verified (i : Z) (d : DB) : DB :=
  mkDB (map (fun u => if u_id u =? i
                      then mkUser (u_id u) (u_email u) (u_password_hash u) true (u_created_at u)
                      else u) (users d))
       (otp_codes d) (accounts d) (transactions d).

(** [acc.balance = f(acc.balance)] on the row whose primary key is [i]:
    the balance is read from the row as it is now and written back, which
    is what [-=] and [+=] do on the mapped object. *)
Definition update_balance (i : Z) (f : Q -> Q) (d : DB) : DB :=
  mkDB (users d) (otp_codes d)
       (map (fun a => if a_id a =? i
                      then mkAccount (a_id a) (a_user_id a) (a_bank_type a) (a_name a)
                             (f (a_balance a))
                      else a) (accounts d))
       (transactions d).

(** Truthiness of an integer read from the session: [None] and [0] are
    falsy. *)
Definition truthy (i : option Z) : option Z :=
  match i with
  | Some n => if n =? 0 then None else Some n
  | None => None
  end.

(** [d.get(k)] and [d.get(k, default)] on a payload, whose values are
    strings or [None]. *)
Definition payload_get (p : gmap string (option string)) (k : string) : option string :=
  default None (p !! k).

Definition payload_get_or (p : gmap string (option string)) (k d : string) : option string :=
  default (Some d) (p !! k).

(** [request.form.get(k)] and [request.form.get(k, default)] *)
Definition form_get (f : gmap string string) (k : string) : option string := f !! k.

Definition form_get_or (f : gmap string string) (k d : string) : string :=
  default d (f !! k).

(** ** [app/finance/routes.py] *)

Definition BANK_TYPES : list string := ["NEQUI"; "BANCOLOMBIA"; "DAVIPLATA"; "NU"; "OTRO"].

(** [bank_type in BANK_TYPES], where [bank_type] may be [None]. *)
Definition in_BANK_TYPES (b : option string) : bool :=
  match b with
  | Some s => existsb (String.eqb s) BANK_TYPES
  | None => false
  end.

Definition login_required (view : World -> Response * World) (w : World) : Response * World :=
  match truthy (s_user_id (session w)) with
  | None => (flash_redirect LoginRequired auth_login, w)
  | Some _ => view w
  end.

(** [random.randint(0, 999999)] formatted on six digits. *)
Definition _generate_otp_code (e : Env) : string := PyStr.fmt06d (rand e mod 1000000).

Definition _clear_pending_operation (w : World) : World :=
  set_session (mkSession (s_user_id (session w)) (s_pending_otp_user_id (session w)) None None) w.

Definition _start_operation_otp (e : Env) (user : User) (op_name : string)
    (payload : gmap string (option string)) (title : string) (w : World) : World :=
  let code := _generate_otp_code e in
  let otp := new_otp e (db w) (u_id user) code in
  let w := commit (set_db (add_otp otp (db w)) w) in
  set_session
    (mkSession (s_user_id (session w)) (s_pending_otp_user_id (session w))
       (Some (mkPendingOp op_name payload title (now e)))
       (Some (o_id otp)))
    w.

(** [bank_type] and [initial_balance_raw] come from [payload.get] and may
    be [None]; past the first check [bank_type] is one of [BANK_TYPES]. *)
Definition _execute_create_account (e : Env) (user : User) (bank_type : option string)
    (name : string) (initial_balance_raw : option string) (w : World) : Response * World :=
  if negb (in_BANK_TYPES bank_type) then
    (flash_redirect InvalidBankType finance_dashboard, w)
  else if negb (PyStr.nonempty name) then
    (flash_redirect InvalidAlias finance_dashboard, w)
  else
    match PyDecimal.Decimal
            (PyStr.str_or (PyStr.strip (PyStr.or_else initial_balance_raw "0")) "0") with
    | None => (flash_redirect InvalidInitialBalance finance_dashboard, w)
    | Some initial_balance =>
        let acc := mkAccount (next_id (map a_id (accounts (db w)))) (u_id user)
                     (default "OTRO" bank_type) name initial_balance in
        let d := add_account acc (db w) in
        let d :=
          if negb (PyDecimal.eqb initial_balance 0) then
            add_all_transactions
              [mkTransaction (next_id (map t_id (transactions d))) (a_id acc) (now e)
                 "Saldo inicial" initial_balance "INGRESO" None None] d
          else d in
        (flash_redirect AccountCreated finance_dashboard, commit (set_db d w))
    end.

(** The two rows of a transfer of [amount] from account [f] to account
    [t]; the ids are the next two primary keys. *)
Definition transfer_rows (e : Env) (d : DB) (f t : Account) (amount : Q)
    (description : string) (out_email in_email : option string) : list Transaction :=
  let i := next_id (map t_id (transactions d)) in
  [ mkTransaction i (a_id f) (now e) description (- amount)%Q "TRANSFER_OUT"
      (Some (a_id t)) out_email;
    mkTransaction (i + 1) (a_id t) (now e) description amount "TRANSFER_IN"
      (Some (a_id f)) in_email ].

(** [amount = Decimal(s)] followed by [if amount <= 0: raise ValueError];
    [None] when either raises. *)
Definition positive_decimal (s : string) : option Q :=
  match PyDecimal.Decimal s with
  | Some amount => if PyDecimal.leb amount 0 then None else Some amount
  | None => None
  end.

(** The amount read at execution time, from [(amount_raw or "").strip()]. *)
Definition parse_amount (amount_raw : option string) : option Q :=
  positive_decimal (PyStr.strip (PyStr.or_else amount_raw "")).

(** The balance adjustment and the insertion of the paired rows, followed
    by the one commit of a transfer. *)
Definition apply_transfer (e : Env) (f t : Account) (amount : Q)
    (description : string) (out_email in_email : option string) (w : World) : World :=
  let d := update_balance (a_id f) (fun b => b - amount)%Q (db w) in
  let d := update_balance (a_id t) (fun b => b + amount)%Q d in
  let d := add_all_transactions
             (transfer_rows e d f t amount description out_email in_email) d in
  commit (set_db d w).

Definition _execute_transfer_internal (e : Env) (user : User) (from_id to_id : option string)
    (amount_raw : option string) (description : string) (w : World) : Response * World :=
  if bool_decide (from_id = to_id) then
    (flash_redirect SameAccount finance_dashboard, w)
  else
    match parse_amount amount_raw with
    | None => (flash_redirect InvalidAmount finance_dashboard, w)
    | Some amount =>
        match Account_by_id_user (db w) from_id (u_id user),
              Account_by_id_user (db w) to_id (u_id user) with
        | Some from_acc, Some to_acc =>
            if PyDecimal.ltb (a_balance from_acc) amount then
              (flash_redirect InsufficientFunds finance_dashboard, w)
            else
              (flash_redirect InternalTransferDone finance_dashboard,
               apply_transfer e from_acc to_acc amount description None None w)
        | _, _ => (flash_redirect AccountsNotFound finance_dashboard, w)
        end
    end.

Definition _execute_transfer_external (e : Env) (user : User) (from_id : option string)
    (recipient_email : string) (amount_raw : option string) (description : string)
    (w : World) : Response * World :=
  if negb (PyStr.nonempty recipient_email) then
    (flash_redirect RecipientEmailRequired finance_dashboard, w)
  else
    match parse_amount amount_raw with
    | None => (flash_redirect InvalidAmount finance_dashboard, w)
    | Some amount =>
        match Account_by_id_user (db w) from_id (u_id user) with
        | None => (flash_redirect SourceAccountNotFound finance_dashboard, w)
        | Some from_acc =>
            if PyDecimal.ltb (a_balance from_acc) amount then
              (flash_redirect InsufficientFunds finance_dashboard, w)
            else
              match User_by_email (db w) recipient_email with
              | None => (flash_redirect RecipientNotFound finance_dashboard, w)
              | Some recipient =>
                  match Account_first_of_user (db w) (u_id recipient) with
                  | None => (flash_redirect RecipientHasNoAccount finance_dashboard, w)
                  | Some to_acc =>
                      (flash_redirect ExternalTransferDone finance_dashboard,
                       apply_transfer e from_acc to_acc amount description
                         (Some (u_email recipient)) (Some (u_email user)) w)
                  end
              end
        end
    end.

(** [timedelta(minutes=m)] *)
Definition minutes (m : Z) : Z := m * 60000000.

(** [current_app.config.get("OTP_EXP_MINUTES", 5)] *)
Definition max_age (e : Env) : Z := default 5 (OTP_EXP_MINUTES e).

(** [otp.created_at < datetime.utcnow() - timedelta(minutes=max_age)] *)
Definition expired (e : Env) (otp : OtpCode) : bool :=
  o_created_at otp <? now e - minutes (max_age e).

(** The dispatch at the end of a successful confirmation. *)
Definition execute_pending (e : Env) (user : User) (op_name : string)
    (payload : gmap string (option string)) (w : World) : Response * World :=
  if String.eqb op_name "create_account" then
    _execute_create_account e user
      (payload_get_or payload "bank_type" "OTRO")
      (PyStr.strip (PyStr.or_else (payload_get payload "name") ""))
      (payload_get_or payload "initial_balance" "0") w
  else if String.eqb op_name "transfer_internal" then
    _execute_transfer_internal e user
      (payload_get payload "from_account_id")
      (payload_get payload "to_account_id")
      (payload_get_or payload "amount" "")
      (PyStr.str_or (PyStr.strip (PyStr.or_else (payload_get payload "description") ""))
         "Transferencia interna") w
  else if String.eqb op_name "transfer_external" then
    _execute_transfer_external e user
      (payload_get payload "from_account_id")
      (PyStr.strip (PyStr.lower (PyStr.or_else (payload_get payload "recipient_email") "")))
      (payload_get_or payload "amount" "")
      (PyStr.str_or (PyStr.strip (PyStr.or_else (payload_get payload "description") ""))
         "Transferencia a otro usuario") w
  else
    (flash_redirect UnknownOperation finance_gestion, w).

Definition confirmar_operacion (e : Env) (method : Method) (form : gmap string string)
  : World -> Response * World :=
  login_required (fun w =>
    match s_pending_operation (session w), truthy (s_pending_operation_otp_id (session w)) with
    | Some op, Some otp_id =>
        match User_get (db w) (s_user_id (session w)) with
        | None => ((None, Abort404), w)
        | Some user =>
            match method with
            | GET => ((None, Render tpl_confirmar_operacion), w)
            | POST =>
                let code := PyStr.strip (form_get_or form "code" "") in
                if negb (PyStr.nonempty code) then
                  (flash_redirect CodeRequired finance_confirmar_operacion, w)
                else
                  match OtpCode_by_id_user (db w) otp_id (u_id user) with
                  | None =>
                      (flash_redirect OtpUsedOrMissing finance_gestion,
                       _clear_pending_operation w)
                  | Some otp =>
                      if o_used otp then
                        (flash_redirect OtpUsedOrMissing finance_gestion,
                         _clear_pending_operation w)
                      else if negb (String.eqb (o_code otp) code) then
                        (flash_redirect OtpInvalid finance_confirmar_operacion, w)
                      else if expired e otp then
                        (flash_redirect OtpExpired finance_confirmar_operacion, w)
                      else
                        let w := commit (set_db (mark_used (o_id otp) (db w)) w) in
                        let payload := op_payload op in
                        let op_name := op_name op in
                        let w := _clear_pending_operation w in
                        execute_pending e user op_name payload w
                  end
            end
        end
    | _, _ => (flash_redirect NoPendingOperation finance_gestion, w)
    end).

Definition cancelar_operacion : World -> Response * World :=
  login_required (fun w =>
    (flash_redirect OperationCancelled finance_gestion, _clear_pending_operation w)).

Definition reenviar_otp_operacion (e : Env) : World -> Response * World :=
  login_required (fun w =>
    match s_pending_operation (session w) with
    | None => (flash_redirect NoPendingToResend finance_gestion, w)
    | Some op =>
        match User_get (db w) (s_user_id (session w)) with
        | None => ((None, Abort404), w)
        | Some user =>
            let code := _generate_otp_code e in
            let otp := new_otp e (db w) (u_id user) code in
            let w := commit (set_db (add_otp otp (db w)) w) in
            let w := set_session
                       (mkSession (s_user_id (session w)) (s_pending_otp_user_id (session w))
                          (s_pending_operation (session w)) (Some (o_id otp))) w in
            (flash_redirect OtpResent finance_confirmar_operacion, w)
        end
    end).

(** Staging of the three sensitive operations: the request is checked, an
    OTP is issued and the operation waits in the session. *)

Definition create_account (e : Env) (form : gmap string string) : World -> Response * World :=
  login_required (fun w =>
    match User_get (db w) (s_user_id (session w)) with
    | None => ((None, Abort404), w)
    | Some user =>
        let bank_type := form_get_or form "bank_type" "OTRO" in
        let name := PyStr.strip (form_get_or form "name" "") in
        let initial_balance_raw :=
          PyStr.str_or (PyStr.strip (form_get_or form "initial_balance" "0")) "0" in
        if negb (in_BANK_TYPES (Some bank_type)) then
          (flash_redirect InvalidBankType finance_dashboard, w)
        else if negb (PyStr.nonempty name) then
          (flash_redirect InvalidAlias finance_dashboard, w)
        else
          match PyDecimal.Decimal initial_balance_raw with
          | None => (flash_redirect InvalidInitialBalance finance_dashboard, w)
          | Some initial_balance =>
              let w := _start_operation_otp e user "create_account"
                         (<["bank_type" := Some bank_type]>
                            (<["name" := Some name]>
                               (<["initial_balance" := Some initial_balance_raw]> ∅)))
                         "Creación de cuenta bancaria" w in
              (flash_redirect OtpSentCreateAccount finance_confirmar_operacion, w)
          end
    end).

Definition transfer_internal (e : Env) (form : gmap string string) : World -> Response * World :=
  login_required (fun w =>
    match User_get (db w) (s_user_id (session w)) with
    | None => ((None, Abort404), w)
    | Some user =>
        let from_id := form_get form "from_account_id" in
        let to_id := form_get form "to_account_id" in
        let amount_raw := PyStr.strip (form_get_or form "amount" "") in
        let description :=
          PyStr.str_or (PyStr.strip (form_get_or form "description" "")) "Transferencia interna" in
        if bool_decide (from_id = to_id) then
          (flash_redirect SameAccount finance_dashboard, w)
        else
          match positive_decimal amount_raw with
          | None => (flash_redirect InvalidAmount finance_dashboard, w)
          | Some amount =>
              match Account_by_id_user (db w) from_id (u_id user),
                    Account_by_id_user (db w) to_id (u_id user) with
              | Some from_acc, Some to_acc =>
                  if PyDecimal.ltb (a_balance from_acc) amount then
                    (flash_redirect InsufficientFunds finance_dashboard, w)
                  else
                    let w := _start_operation_otp e user "transfer_internal"
                               (<["from_account_id" := from_id]>
                                  (<["to_account_id" := to_id]>
                                     (<["amount" := Some amount_raw]>
                                        (<["description" := Some description]> ∅))))
                               "Transferencia interna" w in
                    (flash_redirect OtpSentTransferInternal finance_confirmar_operacion, w)
              | _, _ => (flash_redirect AccountsNotFound finance_dashboard, w)
              end
          end
    end).

Definition transfer_external (e : Env) (form : gmap string string) : World -> Response * World :=
  login_required (fun w =>
    match User_get (db w) (s_user_id (session w)) with
    | None => ((None, Abort404), w)
    | Some sender =>
        let from_id := form_get form "from_account_id" in
        let recipient_email := PyStr.strip (PyStr.lower (form_get_or form "recipient_email" "")) in
        let amount_raw := PyStr.strip (form_get_or form "amount" "") in
        let description :=
          PyStr.str_or (PyStr.strip (form_get_or form "description" ""))
            "Transferencia a otro usuario" in
        if negb (PyStr.nonempty recipient_email) then
          (flash_redirect RecipientEmailRequired finance_dashboard, w)
        else
          match positive_decimal amount_raw with
          | None => (flash_redirect InvalidAmount finance_dashboard, w)
          | Some amount =>
              match Account_by_id_user (db w) from_id (u_id sender) with
              | None => (flash_redirect SourceAccountNotFound finance_dashboard, w)
              | Some from_acc =>
                  if PyDecimal.ltb (a_balance from_acc) amount then
                    (flash_redirect InsufficientFunds finance_dashboard, w)
                  else
                    match User_by_email (db w) recipient_email with
                    | None => (flash_redirect RecipientNotFound finance_dashboard, w)
                    | Some recipient =>
                        match Account_first_of_user (db w) (u_id recipient) with
                        | None => (flash_redirect RecipientHasNoAccount finance_dashboard, w)
                        | Some to_acc =>
                            let w := _start_operation_otp e sender "transfer_external"
                                       (<["from_account_id" := from_id]>
                                          (<["recipient_email" := Some recipient_email]>
                                             (<["amount" := Some amount_raw]>
                                                (<["description" := Some description]> ∅))))
                                       "Transferencia a otro usuario" w in
                            (flash_redirect OtpSentTransferExternal finance_confirmar_operacion, w)
                        end
                    end
              end
          end
    end).

(** ** The read-only views ([dashboard], [gestion], [movimientos]) and
    the template context of [app/__init__.py] *)

(** What a view produces: the data handed to its template, an answer
    that is not a page (a redirect, a 404), or an uncaught exception,
    which the framework turns into a server error. *)
Inductive ViewResult (A : Type) :=
| Shown (page : A)
| Answered (r : Response)
| Crash.

Arguments Shown {A} page.
Arguments Answered {A} r.
Arguments Crash {A}.

(** [login_required] around a view. *)
Definition login_required_view {A} (view : World -> ViewResult A) (w : World) : ViewResult A :=
  match truthy (s_user_id (session w)) with
  | None => Answered (flash_redirect LoginRequired auth_login)
  | Some _ => view w
  end.

(** [Account.query.filter_by(user_id=uid).all()] *)
Definition Account_all_of_user (d : DB) (uid : Z) : list Account :=
  List.filter (fun a => a_user_id a =? uid) (accounts d).

(** [sum(xs)]: the additions start from [0] and go left to right. *)
Definition py_sum (xs : list Q) : Q := fold_left Qplus xs 0%Q.

(** [sum(a.balance for a in accounts) if accounts else 0] *)
Definition total_balance (accs : list Account) : Q :=
  match accs with
  | [] => 0%Q
  | _ => py_sum (map a_balance accs)
  end.

(** The context of [finance/dashboard.html]; [gestion] adds the bank
    types. *)
Record AccountsPage := mkAccountsPage {
  pg_user : User;
  pg_accounts : list Account;
  pg_total_balance : Q;
  pg_bank_types : list string
}.

(** [User.query.get] may find no row; [user.id] then raises. *)
Definition dashboard : World -> ViewResult AccountsPage :=
  login_required_view (fun w =>
    match User_get (db w) (s_user_id (session w)) with
    | None => Crash
    | Some user =>
        let accs := Account_all_of_user (db w) (u_id user) in
        Shown (mkAccountsPage user accs (total_balance accs) [])
    end).

Definition gestion : World -> ViewResult AccountsPage :=
  login_required_view (fun w =>
    match User_get (db w) (s_user_id (session w)) with
    | None => Crash
    | Some user =>
        let accs := Account_all_of_user (db w) (u_id user) in
        Shown (mkAccountsPage user accs (total_balance accs) BANK_TYPES)
    end).

(** [Account.query.filter_by(id=i, user_id=uid).first()] for an integer
    key, as the route converter [<int:account_id>] delivers it. *)
Definition Account_by_key_user (d : DB) (i uid : Z) : option Account :=
  List.find (fun a => (a_id a =? i) && (a_user_id a =? uid)) (accounts d).

(** [order_by(Transaction.date.desc())]: a stable insertion sort. *)
Fixpoint insert_by_date (t : Transaction) (l : list Transaction) : list Transaction :=
  match l with
  | [] => [t]
  | p :: r => if t_date p <=? t_date t then t :: l else p :: insert_by_date t r
  end.

Definition order_by_date_desc (l : list Transaction) : list Transaction :=
  fold_right insert_by_date [] l.

(** The context of [finance/movimientos.html]. *)
Record MovementsPage := mkMovementsPage {
  mv_user : User;
  mv_account : Account;
  mv_txs : list Transaction
}.

Definition movimientos (account_id : Z) : World -> ViewResult MovementsPage :=
  login_required_view (fun w =>
    match User_get (db w) (s_user_id (session w)) with
    | None => Answered (None, Abort404)
    | Some user =>
        match Account_by_key_user (db w) account_id (u_id user) with
        | None => Answered (None, Abort404)
        | Some account =>
            Shown (mkMovementsPage user account
                     (order_by_date_desc
                        (List.filter (fun t => t_account_id t =? a_id account)
                           (transactions (db w)))))
        end
    end).

(** [inject_user]: [current_user] and [is_authenticated] for every
    template. *)
Definition inject_user (w : World) : option User * bool :=
  let user :=
    match s_user_id (session w) with
    | Some i => User_get (db w) (Some i)
    | None => None
    end in
  (user, match user with Some _ => true | None => false end).

(** ** [app/mfa/routes.py] *)

Definition verify_otp (e : Env) (method : Method) (form : gmap string string) (w : World)
  : Response * World :=
  match truthy (s_pending_otp_user_id (session w)) with
  | None => (flash_redirect LoginFirst auth_login, w)
  | Some user_id =>
      match User_get (db w) (Some user_id) with
      | None => ((None, Abort404), w)
      | Some user =>
          match method with
          | GET => ((None, Render tpl_verify_otp), w)
          | POST =>
              let code := PyStr.strip (form_get_or form "code" "") in
              if negb (PyStr.nonempty code) then
                (flash_redirect MfaCodeRequired mfa_verify_otp, w)
              else
                match OtpCode_latest_unused (db w) (u_id user) code with
                | None => (flash_redirect MfaOtpInvalid mfa_verify_otp, w)
                | Some otp =>
                    if expired e otp then
                      (flash_redirect MfaOtpExpired mfa_verify_otp, w)
                    else
                      let w := commit (set_db (mark_used (o_id otp) (db w)) w) in
                      let w := set_session
                                 (mkSession (Some (u_id user)) None
                                    (s_pending_operation (session w))
                                    (s_pending_operation_otp_id (session w))) w in
                      (flash_redirect MfaDone finance_dashboard, w)
                end
          end
      end
  end.

(** ** [app/auth/routes.py] *)

Section Auth.

(** [app/security.py] is not among the sources, and the e-mail token is
    checked by a signing library: the three functions are parameters.
    [confirm_email_token] yields the address a valid token carries. *)
Variable hash_password : string -> string.
Variable check_password : string -> string -> bool.
Variable confirm_email_token : datetime -> string -> option string.

Definition register (e : Env) (method : Method) (form : gmap string string) (w : World)
  : Response * World :=
  match truthy (s_user_id (session w)) with
  | Some _ => ((None, Redirect finance_dashboard), w)
  | None =>
      match method with
      | GET => ((None, Render tpl_register), w)
      | POST =>
          let email := PyStr.strip (PyStr.lower (form_get_or form "email" "")) in
          let password := form_get_or form "password" "" in
          if negb (PyStr.nonempty email) || negb (PyStr.nonempty password) then
            (flash_redirect CredentialsRequired auth_register, w)
          else
            match User_by_email (db w) email with
            | Some _ => (flash_redirect EmailTaken auth_register, w)
            | None =>
                let user := mkUser (next_id (map u_id (users (db w)))) email
                              (hash_password password) false (now e) in
                let w := commit (set_db (add_user user (db w)) w) in
                let acc := mkAccount (next_id (map a_id (accounts (db w)))) (u_id user)
                             "OTRO" "Cuenta Ahorros Principal" 1500000 in
                let w := commit (set_db (add_account acc (db w)) w) in
                let tx1 := mkTransaction (next_id (map t_id (transactions (db w))))
                             (a_id acc) (now e) "Depósito inicial" 1500000 "ingreso"
                             None None in
                let w := commit (set_db (add_all_transactions [tx1] (db w)) w) in
                ((None, Render tpl_email_verification_sent), w)
            end
      end
  end.

Definition verify_email (e : Env) (token : string) (w : World) : Response * World :=
  match confirm_email_token (now e) token with
  | None => (flash_redirect BadVerificationLink auth_login, w)
  | Some email =>
      match User_by_email (db w) email with
      | None => ((None, Abort404), w)
      | Some user =>
          let w := if negb (u_email_verified user)
                   then commit (set_db (mark_verified (u_id user) (db w)) w)
                   else w in
          ((None, Render tpl_email_verified_ok), w)
      end
  end.

Definition login (e : Env) (method : Method) (form : gmap string string) (w : World)
  : Response * World :=
  match truthy (s_user_id (session w)) with
  | Some _ => ((None, Redirect finance_dashboard), w)
  | None =>
      match method with
      | GET => ((None, Render tpl_login), w)
      | POST =>
          let email := PyStr.strip (PyStr.lower (form_get_or form "email" "")) in
          let password := form_get_or form "password" "" in
          match User_by_email (db w) email with
          | None => (flash_redirect BadCredentials auth_login, w)
          | Some user =>
              if negb (check_password password (u_password_hash user)) then
                (flash_redirect BadCredentials auth_login, w)
              else if negb (u_email_verified user) then
                (flash_redirect EmailNotVerified auth_login, w)
              else
                let code := _generate_otp_code e in
                let otp := new_otp e (db w) (u_id user) code in
                let w := commit (set_db (add_otp otp (db w)) w) in
                let w := set_session
                           (mkSession (s_user_id (session w)) (Some (u_id user))
                              (s_pending_operation (session w))
                              (s_pending_operation_otp_id (session w))) w in
                (flash_redirect OtpSentLogin mfa_verify_otp, w)
          end
      end
  end.

(** [session.clear()] *)
Definition logout (w : World) : Response * World :=
  (flash_redirect LoggedOut landing, set_session empty_session w).

(** ** The application: requests from several browsers *)

Inductive Request :=
| POST_register (form : gmap string string)
| GET_verify_email (token : string)
| POST_login (form : gmap string string)
| GET_logout
| POST_verify_otp (form : gmap string string)
| POST_create_account (form : gmap string string)
| POST_transfer_internal (form : gmap string string)
| POST_transfer_external (form : gmap string string)
| POST_confirmar_operacion (form : gmap string string)
| POST_cancelar_operacion
| POST_reenviar_otp_operacion.

Definition handle (e : Env) (r : Request) : World -> Response * World :=
  match r with
  | POST_register f => register e POST f
  | GET_verify_email t => verify_email e t
  | POST_login f => login e POST f
  | GET_logout => logout
  | POST_verify_otp f => verify_otp e POST f
  | POST_create_account f => create_account e f
  | POST_transfer_internal f => transfer_internal e f
  | POST_transfer_external f => transfer_external e f
  | POST_confirmar_operacion f => confirmar_operacion e POST f
  | POST_cancelar_operacion => cancelar_operacion
  | POST_reenviar_otp_operacion => reenviar_otp_operacion e
  end.

(** The server: one database, one session per browser. *)
Record Server := mkServer {
  sv_db : DB;
  sv_commits : list DB;
  sv_sessions : gmap nat Session
}.

Definition empty_server : Server := mkServer empty_db [] ∅.

(** One request of browser [client]. *)
Definition serve (e : Env) (client : nat) (r : Request) (sv : Server) : Response * Server :=
  let w := mkWorld (sv_db sv) (sv_commits sv)
             (default empty_session (sv_sessions sv !! client)) in
  let '(resp, w') := handle e r w in
  (resp, mkServer (db w') (commits w') (<[client := session w']> (sv_sessions sv))).

(** The server after a sequence of requests, oldest first. *)
Fixpoint run (reqs : list (Env * nat * Request)) (sv : Server) : Server :=
  match reqs with
  | [] => sv
  | (e, client, r) :: rest => run rest (snd (serve e client r sv))
  end.

End Auth.

(** * Notions used in the statements *)


(** The rows of the ledger linked to account [i]. *)
Definition txs_of (d : DB) (i : Z) : list Transaction :=
  List.filter (fun t => t_account_id t =? i) (transactions d).




(** [Account.query.get(i)]: the row with primary key [i]. *)
Definition Account_get (d : DB) (i : Z) : option Account :=
  List.find (fun a => a_id a =? i) (accounts d).

(** The balance of the account with primary key [i]. *)
Definition balance_of (d : DB) (i : Z) : Q :=
  match Account_get d i with
  | Some a => a_balance a
  | None => 0%Q
  end.

(** The code a form submits, as the handlers read it. *)
Definition submitted_code (form : gmap string string) : string :=
  PyStr.strip (form_get_or form "code" "").

(** A logged-in session of [user] holds the pending operation [op], bound
    to the challenge [otp], which belongs to [user] and is unused. *)
Definition bound_challenge (w : World) (user : User) (op : PendingOp) (otp : OtpCode) : Prop :=
  truthy (s_user_id (session w)) <> None /\
  User_get (db w) (s_user_id (session w)) = Some user /\
  s_pending_operation (session w) = Some op /\
  truthy (s_pending_operation_otp_id (session w)) = Some (o_id otp) /\
  OtpCode_by_id_user (db w) (o_id otp) (u_id user) = Some otp /\
  o_used otp = false /\
  PyStr.nonempty (o_code otp) = true.

(** ... and the form submits exactly the code of that challenge. *)
Definition bound_code_submitted (form : gmap string string) (w : World)
    (user : User) (op : PendingOp) (otp : OtpCode) : Prop :=
  bound_challenge w user op otp /\ submitted_code form = o_code otp.

(** A correct, unused and unexpired code for the bound challenge. *)
Definition valid_confirmation (e : Env) (form : gmap string string) (w : World)
    (user : User) (op : PendingOp) (otp : OtpCode) : Prop :=
  bound_code_submitted form w user op otp /\ expired e otp = false.

(** The world in which the staged operation runs: the challenge is marked
    used and committed, then the session forgets the operation. *)
Definition consumed (otp : OtpCode) (w : World) : World :=
  _clear_pending_operation (commit (set_db (mark_used (o_id otp) (db w)) w)).

(** A successful execution is reported by one of three messages. *)
Definition is_success (r : Response) : bool :=
  match fst r with
  | Some AccountCreated | Some InternalTransferDone | Some ExternalTransferDone => true
  | _ => false
  end.

(** A logged-in session of [user] holding the pending operation [op]. *)
Definition pending_session (w : World) (user : User) (op : PendingOp) : Prop :=
  truthy (s_user_id (session w)) <> None /\
  User_get (db w) (s_user_id (session w)) = Some user /\
  s_pending_operation (session w) = Some op.

(** The challenge a resend issues, and the world it leaves. *)
Definition resent_otp (e : Env) (user : User) (w : World) : OtpCode :=
  new_otp e (db w) (u_id user) (_generate_otp_code e).

Definition resent (e : Env) (user : User) (w : World) : World :=
  let w1 := commit (set_db (add_otp (resent_otp e user w) (db w)) w) in
  set_session
    (mkSession (s_user_id (session w)) (s_pending_otp_user_id (session w))
       (s_pending_operation (session w)) (Some (o_id (resent_otp e user w)))) w1.

(** The initial-balance string of an open-account form, as staging reads
    it. *)
Definition staged_initial_balance (form : gmap string string) : string :=
  PyStr.str_or (PyStr.strip (form_get_or form "initial_balance" "0")) "0".

(** The payloads that staging keeps for an internal and for an external
    transfer. *)
Definition internal_payload (form : gmap string string) : gmap string (option string) :=
  <["from_account_id" := form_get form "from_account_id"]>
    (<["to_account_id" := form_get form "to_account_id"]>
       (<["amount" := Some (PyStr.strip (form_get_or form "amount" ""))]>
          (<["description" :=
               Some (PyStr.str_or (PyStr.strip (form_get_or form "description" ""))
                       "Transferencia interna")]> ∅))).

Definition external_payload (form : gmap string string) : gmap string (option string) :=
  <["from_account_id" := form_get form "from_account_id"]>
    (<["recipient_email" := Some (PyStr.strip (PyStr.lower (form_get_or form "recipient_email" "")))]>
       (<["amount" := Some (PyStr.strip (form_get_or form "amount" ""))]>
          (<["description" :=
               Some (PyStr.str_or (PyStr.strip (form_get_or form "description" ""))
                       "Transferencia a otro usuario")]> ∅))).

(** Accounts are never deleted and never change owner: every account of
    [d] is still in [d'] under the same key and owner. *)
Definition accounts_persist (d d' : DB) : Prop :=
  forall a, In a (accounts d) ->
    exists a', In a' (accounts d') /\ a_id a' = a_id a /\ a_user_id a' = a_user_id a.

(** A sequence of confirmation attempts from one session. *)
Fixpoint submit_codes (tries : list (Env * gmap string string)) (w : World) : World :=
  match tries with
  | [] => w
  | (e, form) :: rest => submit_codes rest (snd (confirmar_operacion e POST form w))
  end.

(** What a successful staging of the operation [name] does to the world:
    one new unused challenge for the session user, under a key no
    challenge had, committed at once; the session holds the operation,
    bound to that key. *)
Definition staged_as (e : Env) (name : string) (w w' : World) : Prop :=
  exists user op,
    User_get (db w) (s_user_id (session w)) = Some user /\
    db w' = add_otp (new_otp e (db w) (u_id user) (_generate_otp_code e)) (db w) /\
    commits w' = db w' :: commits w /\
    ~ In (next_id (map o_id (otp_codes (db w)))) (map o_id (otp_codes (db w))) /\
    s_pending_operation_otp_id (session w') = Some (next_id (map o_id (otp_codes (db w)))) /\
    s_pending_operation (session w') = Some op /\
    op_name op = name /\ op_created_at op = now e /\
    s_user_id (session w') = s_user_id (session w) /\
    s_pending_otp_user_id (session w') = s_pending_otp_user_id (session w).


(** The address of a registration or login form, as the handlers read
    it. *)
Definition normalised_email (form : gmap string string) : string :=
  PyStr.strip (PyStr.lower (form_get_or form "email" "")).

(** The single writes out of which the handlers build their database
    updates, with what each handler has checked before it writes. *)
Inductive db_write : DB -> DB -> Prop :=
| write_user d u :
    u_id u = next_id (map u_id (users d)) ->
    ~ In (u_email u) (map u_email (users d)) ->
    db_write d (add_user u d)
| write_otp d o :
    o_id o = next_id (map o_id (otp_codes d)) ->
    In (o_user_id o) (map u_id (users d)) ->
    db_write d (add_otp o d)
| write_account d a :
    a_id a = next_id (map a_id (accounts d)) ->
    In (a_user_id a) (map u_id (users d)) ->
    db_write d (add_account a d)
| write_transactions d ts :
    List.NoDup (map t_id ts) ->
    (forall t, In t ts ->
       next_id (map t_id (transactions d)) <= t_id t /\
       In (t_account_id t) (map a_id (accounts d))) ->
    db_write d (add_all_transactions ts d)
| write_balance d i f : db_write d (update_balance i f d)
| write_used d i : db_write d (mark_used i d)
| write_verified d i : db_write d (mark_verified i d).

(** Primary keys are unique in every table, and so are the users'
    e-mail addresses. *)
Definition keys_ok (d : DB) : Prop :=
  List.NoDup (map u_id (users d)) /\ List.NoDup (map u_email (users d)) /\
  List.NoDup (map o_id (otp_codes d)) /\ List.NoDup (map a_id (accounts d)) /\
  List.NoDup (map t_id (transactions d)).

(** Every foreign key names an existing row. *)
Definition refs_ok (d : DB) : Prop :=
  (forall o, In o (otp_codes d) -> In (o_user_id o) (map u_id (users d))) /\
  (forall a, In a (accounts d) -> In (a_user_id a) (map u_id (users d))) /\
  (forall t, In t (transactions d) -> In (t_account_id t) (map a_id (accounts d))).

(** A challenge of [d] is still in [d'], unchanged but for a used flag
    that may have been set. *)
Definition challenges_kept (d d' : DB) : Prop :=
  forall o, In o (otp_codes d) ->
    exists o', In o' (otp_codes d') /\
      o_id o' = o_id o /\ o_user_id o' = o_user_id o /\ o_code o' = o_code o /\
      o_created_at o' = o_created_at o /\ (o_used o = true -> o_used o' = true).

(** A user of [d] is still in [d'], unchanged but for a verified flag
    that may have been set. *)
Definition users_kept (d d' : DB) : Prop :=
  forall u, In u (users d) ->
    exists u', In u' (users d') /\
      u_id u' = u_id u /\ u_email u' = u_email u /\
      u_password_hash u' = u_password_hash u /\ u_created_at u' = u_created_at u /\
      (u_email_verified u = true -> u_email_verified u' = true).

(** An account of [d] is still in [d'], with nothing changed but its
    balance. *)
Definition accounts_kept (d d' : DB) : Prop :=
  forall a, In a (accounts d) ->
    exists a', In a' (accounts d') /\
      a_id a' = a_id a /\ a_user_id a' = a_user_id a /\
      a_bank_type a' = a_bank_type a /\ a_name a' = a_name a.

(** The ledger of [d'] is the ledger of [d] followed by newer rows. *)
Definition ledger_extended (d d' : DB) : Prop :=
  exists newer, transactions d' = (transactions d ++ newer)%list.

(** The sum of [f] over the rows of a table. *)
Definition sum_over {A} (f : A -> Q) (l : list A) : Q :=
  fold_right (fun x s => f x + s)%Q 0%Q l.


(** Newest first. *)
Definition by_date_desc (t1 t2 : Transaction) : Prop := t_date t2 <= t_date t1.


(** Every browser session that is logged in belongs to a row of the users
    table. *)
Definition logged_in_users_exist (sv : Server) : Prop :=
  forall client s i,
    sv_sessions sv !! client = Some s ->
    truthy (s_user_id s) = Some i ->
    exists u, User_get (sv_db sv) (Some i) = Some u.

(** What browser [client] sees of the server. *)
Definition world_of (sv : Server) (client : nat) : World :=
  mkWorld (sv_db sv) (sv_commits sv) (default empty_session (sv_sessions sv !! client)).
(** ** Sample worlds *)

Module Sample.

Definition ana : User := mkUser 1 "ana@x.com" "h1" true 0.
Definition bob : User := mkUser 2 "bob@x.com" "h2" true 0.

(** Account A holds 50.00, account B nothing; both are Ana's. *)
Definition acc_a : Account := mkAccount 1 1 "OTRO" "Cuenta Ahorros Principal" 50.
Definition acc_b : Account := mkAccount 2 1 "NEQUI" "Daily" 0.
Definition acc_bob : Account := mkAccount 3 2 "OTRO" "Cuenta Ahorros Principal" 0.
Definition deposit : Transaction := mkTransaction 1 1 0 "Deposito inicial" 50 "ingreso" None None.

Definition base_db : DB := mkDB [ana; bob] [] [acc_a; acc_b; acc_bob] [deposit].

Definition logged_in : Session := mkSession (Some 1) None None None.

Definition base : World := mkWorld base_db [base_db] logged_in.

(** Requests at time [t] (in microseconds) whose random draw is [r]. *)
Definition at_time (t r : Z) : Env := mkEnv t r None.

Definition one_minute : Z := 60000000.

Definition code_form (c : string) : gmap string string := <["code" := c]> ∅.

Definition transfer_form (from to amount : string) : gmap string string :=
  <["from_account_id" := from]> (<["to_account_id" := to]> (<["amount" := amount]> ∅)).

Definition open_form (bank alias balance : string) : gmap string string :=
  <["bank_type" := bank]> (<["name" := alias]> (<["initial_balance" := balance]> ∅)).

(** Ana stages a transfer of 30.00 from A to B; the draw is 123. *)
Definition staged_30 : World := snd (transfer_internal (at_time 0 123) (transfer_form "1" "2" "30.00") base).

(** The operation a session holds. *)
Definition pending_of (w : World) : PendingOp :=
  default (mkPendingOp "" ∅ "" 0) (s_pending_operation (session w)).

(** The challenge that staging issued. *)
Definition challenge_1 : OtpCode := mkOtpCode 1 1 "000123" 0 false.

(** While the transfer waits, 40.00 leave account A for Bob. *)
Definition drained : World :=
  snd (_execute_transfer_external (at_time one_minute 0) ana (Some "1") "bob@x.com"
         (Some "40") "Transferencia a otro usuario" staged_30).

(** Ana asks for a login code twice and holds two unused challenges. *)
Definition two_codes : World :=
  mkWorld (mkDB [ana; bob]
             [mkOtpCode 1 1 "111111" 0 false; mkOtpCode 2 1 "222222" one_minute false]
             [acc_a; acc_b; acc_bob] [deposit])
    [] (mkSession None (Some 1) None None).

(** Stand-ins for the password and token functions. *)
Definition identity_hash (s : string) : string := s.
Definition check_equal (password hash : string) : bool := String.eqb password hash.
Definition token_is_email (t : datetime) (token : string) : option string := Some token.

Definition credentials (email password : string) : gmap string string :=
  <["email" := email]> (<["password" := password]> ∅).

(** One browser: Carla registers, verifies her address, logs in with the
    code 000123, opens an account with 100.00 and moves 30.50 to it. *)
Definition day_one : list (Env * nat * Request) :=
  [ (at_time 0 0, 0%nat, POST_register (credentials "Carla@x.com " "pw"));
    (at_time 1 0, 0%nat, GET_verify_email "carla@x.com");
    (at_time 2 123, 0%nat, POST_login (credentials "carla@x.com" "pw"));
    (at_time 3 0, 0%nat, POST_verify_otp (code_form "000123"));
    (at_time 4 777, 0%nat, POST_create_account (open_form "NEQUI" "Daily" "100.00"));
    (at_time 5 0, 0%nat, POST_confirmar_operacion (code_form "000777"));
    (at_time 6 42, 0%nat, POST_transfer_internal (transfer_form "1" "2" "30.50"));
    (at_time 7 0, 0%nat, POST_confirmar_operacion (code_form "000042")) ].

(** The staged transfer of 30.00 is confirmed after one minute; then the
    browser presents once more the session it held before confirming. *)
Definition confirmed_30 : World :=
  snd (confirmar_operacion (at_time one_minute 0) POST (code_form "000123") staged_30).

Definition replay_30 : World := set_session (session staged_30) confirmed_30.

(** Ana registered, not yet verified; nobody is logged in. *)
Definition fresh_ana : World :=
  snd (register identity_hash (at_time 0 0) POST (credentials "ana@x.com" "pw")
         (mkWorld empty_db [] empty_session)).

(** Ana verified her address and asked for a login code; the draw is 42. *)
Definition ana_at_mfa : World :=
  snd (login check_equal (at_time 2 42) POST (credentials "ana@x.com" "pw")
         (snd (verify_email token_is_email (at_time 1 0) "ana@x.com" fresh_ana))).

End Sample.

Import Sample.

(** * Properties *)

(** ** Ledger bookkeeping *)


Lemma next_id_above (ids : list Z) (i : Z) : In i ids -> i < next_id ids.
Proof.
  unfold next_id. induction ids as [|j ids IH]; simpl; [tauto|].
  intros [->|Hin]; [lia|]. specialize (IH Hin). lia.
Qed.

Lemma next_id_fresh (ids : list Z) : ~ In (next_id ids) ids.
Proof. intros H. apply next_id_above in H. lia. Qed.

Lemma filter_none {A} (p : A -> bool) (l : list A) :
  (forall x, In x l -> p x = false) -> List.filter p l = [].
Proof.
  induction l as [|x l IH]; simpl; intros H; [reflexivity|].
  rewrite (H x) by auto. apply IH. auto.
Qed.




Lemma update_balance_ids (i : Z) (f : Q -> Q) (d : DB) :
  map a_id (accounts (update_balance i f d)) = map a_id (accounts d).
Proof.
  simpl. rewrite map_map. apply map_ext. intros a. destruct (a_id a =? i); reflexivity.
Qed.



Lemma Account_by_id_user_In d i uid a :
  Account_by_id_user d i uid = Some a -> In a (accounts d).
Proof.
  unfold Account_by_id_user. destruct (sql_int i); [|discriminate].
  intros H. apply find_some in H. tauto.
Qed.

Lemma Account_first_of_user_In d uid a :
  Account_first_of_user d uid = Some a -> In a (accounts d).
Proof. intros H. apply find_some in H. tauto. Qed.

(** *** Every handler keeps the ledger balanced *)










(** *** Accounts are never deleted *)

Lemma accounts_persist_refl d d' : accounts d' = accounts d -> accounts_persist d d'.
Proof. intros E a Ha. exists a. rewrite E. auto. Qed.

Lemma accounts_persist_trans d1 d2 d3 :
  accounts_persist d1 d2 -> accounts_persist d2 d3 -> accounts_persist d1 d3.
Proof.
  intros H12 H23 a Ha. destruct (H12 a Ha) as (b & Hb & Hid & Hown).
  destruct (H23 b Hb) as (c & Hc & Hid' & Hown'). exists c.
  split; [exact Hc|]. split; congruence.
Qed.

Lemma accounts_persist_add_account d acc : accounts_persist d (add_account acc d).
Proof. intros a Ha. exists a. split; [apply in_app_iff; left; exact Ha|auto]. Qed.

Lemma accounts_persist_update_balance d i f : accounts_persist d (update_balance i f d).
Proof.
  intros a Ha. eexists. split; [apply in_map, Ha|].
  destruct (a_id a =? i); split; reflexivity.
Qed.

Lemma accounts_persist_apply_transfer e f t amount description oe ie w :
  accounts_persist (db w) (db (apply_transfer e f t amount description oe ie w)).
Proof.
  eapply accounts_persist_trans; [apply accounts_persist_update_balance|].
  eapply accounts_persist_trans; [apply accounts_persist_update_balance|].
  apply accounts_persist_refl. reflexivity.
Qed.

Lemma execute_pending_accounts_persist e user op_name payload w :
  accounts_persist (db w) (db (snd (execute_pending e user op_name payload w))).
Proof.
  unfold execute_pending, _execute_create_account, _execute_transfer_internal,
    _execute_transfer_external.
  repeat case_match; cbn [snd];
    first [ apply accounts_persist_refl; reflexivity
          | apply accounts_persist_apply_transfer
          | eapply accounts_persist_trans;
            [apply accounts_persist_add_account|apply accounts_persist_refl; reflexivity] ].
Qed.

Section AuthLedger.
Variable hash_password : string -> string.
Variable check_password : string -> string -> bool.
Variable confirm_email_token : datetime -> string -> option string.




(** No request deletes an account or changes its owner. *)
Lemma handle_accounts_persist e r w :
  accounts_persist (db w)
    (db (snd (handle hash_password check_password confirm_email_token e r w))).
Proof.
  destruct r; cbn [handle];
    unfold register, verify_email, login, logout, verify_otp, create_account,
      transfer_internal, transfer_external, confirmar_operacion, cancelar_operacion,
      reenviar_otp_operacion, login_required;
    repeat case_match; cbn [snd];
    first [ apply accounts_persist_refl; reflexivity
          | eapply accounts_persist_trans;
            [apply accounts_persist_add_account|apply accounts_persist_refl; reflexivity]
          | eapply accounts_persist_trans;
            [|apply execute_pending_accounts_persist];
            apply accounts_persist_refl; reflexivity ].
Qed.

Lemma run_accounts_persist reqs sv :
  accounts_persist (sv_db sv)
    (sv_db (run hash_password check_password confirm_email_token reqs sv)).
Proof.
  revert sv. induction reqs as [|[[e client] r] reqs IH]; intros sv;
    [apply accounts_persist_refl; reflexivity|].
  cbn [run]. eapply accounts_persist_trans; [|apply IH]. unfold serve.
  pose proof (handle_accounts_persist e r
    (mkWorld (sv_db sv) (sv_commits sv) (default empty_session (sv_sessions sv !! client)))) as H.
  destruct (handle _ _ _ e r _) as [resp w']. exact H.
Qed.

(** A handler returns with everything it wrote committed: either it left
    the database alone or the database is its last commit. *)
Lemma handle_commits_its_writes e r w :
  let w' := snd (handle hash_password check_password confirm_email_token e r w) in
  db w' = db w \/ hd_error (commits w') = Some (db w').
Proof.
  destruct r; cbn [handle];
    unfold register, verify_email, login, logout, verify_otp, create_account,
      transfer_internal, transfer_external, confirmar_operacion, cancelar_operacion,
      reenviar_otp_operacion, login_required, execute_pending, _execute_create_account,
      _execute_transfer_internal, _execute_transfer_external;
    repeat case_match; cbn [snd]; first [left; reflexivity | right; reflexivity].
Qed.


End AuthLedger.

(** The accounts after [day_one]: 1,500,000 - 30.50 and 100.00 + 30.50,
    over four transaction rows. *)
Example ledger_after_day_one :
  let d := sv_db (run identity_hash check_equal token_is_email day_one empty_server) in
  map (fun a => (a_id a, Qred (a_balance a))) (accounts d) = [(1, 2999939 # 2); (2, 261 # 2)]
  /\ map (fun t => (t_account_id t, Qred (t_amount t))) (transactions d)
     = [(1, 1500000 # 1); (2, 100 # 1); (1, -61 # 2); (2, 61 # 2)].
Proof. vm_compute. split; reflexivity. Qed.

(** ** Transfers are double entries *)

Lemma find_map_inv {A} (p : A -> bool) (g : A -> A) (l : list A) :
  (forall x, p (g x) = p x) -> List.find p (map g l) = option_map g (List.find p l).
Proof.
  intros Hp. induction l as [|x l IH]; simpl; [reflexivity|].
  rewrite Hp. destruct (p x); [reflexivity|exact IH].
Qed.

Lemma find_In_some {A} (p : A -> bool) (l : list A) (x : A) :
  In x l -> p x = true -> exists y, List.find p l = Some y.
Proof.
  intros Hin Hp. destruct (List.find p l) as [y|] eqn:E; [eauto|].
  rewrite (find_none _ _ E x Hin) in Hp. discriminate.
Qed.




(** Under the primary-key constraint, [balance_of] reads the balance of
    the very row a query by key and owner returns. *)
Lemma balance_of_found d i uid a :
  List.NoDup (map a_id (accounts d)) ->
  Account_by_id_user d i uid = Some a ->
  balance_of d (a_id a) = a_balance a.
Proof.
  unfold Account_by_id_user, balance_of, Account_get.
  destruct (sql_int i) as [n|]; [|discriminate].
  intros Hnd H. apply find_some in H as [Hin _]. revert Hnd Hin.
  induction (accounts d) as [|x l IH]; simpl; intros Hnd Hin; [contradiction|].
  inversion Hnd as [|? ? Hx Hl]; subst.
  destruct (a_id x =? a_id a) eqn:E.
  - destruct Hin as [->|Hin]; [reflexivity|].
    apply Z.eqb_eq in E. exfalso. apply Hx. rewrite E. apply in_map, Hin.
  - destruct Hin as [->|Hin]; [rewrite Z.eqb_refl in E; discriminate|].
    apply IH; assumption.
Qed.




(** ** Confirmation of a pending operation *)

Lemma confirm_valid e form w user op otp :
  valid_confirmation e form w user op otp ->
  confirmar_operacion e POST form w =
  execute_pending e user (op_name op) (op_payload op) (consumed otp w).
Proof.
  intros [[(Hlog & Hu & Hop & Hid & Hotp & Hused & Hne) Hcode] Hexp].
  unfold confirmar_operacion, login_required.
  destruct (truthy (s_user_id (session w))); [|contradiction].
  rewrite Hop, Hid, Hu. fold (submitted_code form). rewrite Hcode, Hne. cbn [negb].
  rewrite Hotp, Hused, String.eqb_refl, Hexp. reflexivity.
Qed.

Lemma confirm_expired e form w user op otp :
  bound_code_submitted form w user op otp -> expired e otp = true ->
  confirmar_operacion e POST form w =
  (flash_redirect OtpExpired finance_confirmar_operacion, w).
Proof.
  intros [(Hlog & Hu & Hop & Hid & Hotp & Hused & Hne) Hcode] Hexp.
  unfold confirmar_operacion, login_required.
  destruct (truthy (s_user_id (session w))); [|contradiction].
  rewrite Hop, Hid, Hu. fold (submitted_code form). rewrite Hcode, Hne. cbn [negb].
  rewrite Hotp, Hused, String.eqb_refl, Hexp. reflexivity.
Qed.

(** A failed execution leaves the world as it was. *)
Lemma execute_pending_failure e user op_name payload w :
  is_success (fst (execute_pending e user op_name payload w)) = false ->
  snd (execute_pending e user op_name payload w) = w.
Proof.
  unfold execute_pending, _execute_create_account, _execute_transfer_internal,
    _execute_transfer_external.
  repeat case_match; cbn; congruence.
Qed.

(** An execution never touches users, challenges or the session; it
    commits once when it succeeds and not at all when it fails. *)
Lemma execute_pending_frame e user op_name payload w :
  let w' := snd (execute_pending e user op_name payload w) in
  users (db w') = users (db w) /\ otp_codes (db w') = otp_codes (db w) /\
  session w' = session w /\
  (w' = w \/ commits w' = db w' :: commits w).
Proof.
  unfold execute_pending, _execute_create_account, _execute_transfer_internal,
    _execute_transfer_external.
  repeat case_match; cbn [snd];
    (split; [reflexivity|]; split; [reflexivity|]; split; [reflexivity|]);
    first [left; reflexivity | right; reflexivity].
Qed.

Lemma OtpCode_by_id_user_id d i uid o :
  OtpCode_by_id_user d i uid = Some o -> o_id o = i /\ o_user_id o = uid /\ In o (otp_codes d).
Proof.
  intros H. apply find_some in H as [Hin H]. apply andb_true_iff in H as [H1 H2].
  repeat split; [lia|lia|exact Hin].
Qed.

(** After [mark_used], the challenge is found with its flag set. *)
Lemma OtpCode_by_id_user_mark_used d i uid o :
  OtpCode_by_id_user d i uid = Some o ->
  OtpCode_by_id_user (mark_used i d) i uid =
  Some (mkOtpCode (o_id o) (o_user_id o) (o_code o) (o_created_at o) true).
Proof.
  intros H. unfold OtpCode_by_id_user in *. cbn [otp_codes mark_used].
  rewrite find_map_inv.
  - rewrite H. cbn. apply find_some in H as [_ H]. apply andb_true_iff in H as [H _].
    rewrite H. reflexivity.
  - intros x. destruct (o_id x =? i) eqn:E; cbn [o_id o_user_id]; rewrite ?E; reflexivity.
Qed.

(** C9. When a confirmation presents the correct, unexpired, unused code
    and the execution that follows fails its business checks, the bound
    challenge is nevertheless marked used and the pending operation is
    cleared, while accounts and transactions stay as they were; any
    further confirmation finds no pending operation, so the operation has
    to be staged again. *)
Theorem failed_execution_consumes_code e form w user op otp :
  valid_confirmation e form w user op otp ->
  let r := confirmar_operacion e POST form w in
  is_success (fst r) = false ->
  OtpCode_by_id_user (db (snd r)) (o_id otp) (u_id user) =
    Some (mkOtpCode (o_id otp) (o_user_id otp) (o_code otp) (o_created_at otp) true) /\
  hd_error (commits (snd r)) = Some (db (snd r)) /\
  s_pending_operation (session (snd r)) = None /\
  s_pending_operation_otp_id (session (snd r)) = None /\
  accounts (db (snd r)) = accounts (db w) /\
  transactions (db (snd r)) = transactions (db w) /\
  forall e' form',
    confirmar_operacion e' POST form' (snd r) =
    (flash_redirect NoPendingOperation finance_gestion, snd r).
Proof.
  intros Hv r Hfail. subst r. rewrite (confirm_valid _ _ _ _ _ _ Hv) in *.
  rewrite (execute_pending_failure _ _ _ _ _ Hfail).
  destruct Hv as [[(Hlog & Hu & Hop & Hid & Hotp & Hused & Hne) Hcode] Hexp].
  split; [apply OtpCode_by_id_user_mark_used, Hotp|].
  repeat (split; [reflexivity|]).
  intros e' form'. unfold confirmar_operacion, login_required. cbn.
  destruct (truthy (s_user_id (session w))); [reflexivity|contradiction].
Qed.

(** The confirmation that fails for lack of funds is such a case. *)
Lemma failed_execution_consumes_code_witness :
  let e := at_time (2 * one_minute) 0 in
  let r := confirmar_operacion e POST (code_form "000123") drained in
  fst r = flash_redirect InsufficientFunds finance_dashboard /\
  OtpCode_by_id_user (db (snd r)) (o_id challenge_1) (u_id ana) =
    Some (mkOtpCode (o_id challenge_1) (o_user_id challenge_1) (o_code challenge_1)
            (o_created_at challenge_1) true) /\
  hd_error (commits (snd r)) = Some (db (snd r)) /\
  s_pending_operation (session (snd r)) = None /\
  s_pending_operation_otp_id (session (snd r)) = None /\
  accounts (db (snd r)) = accounts (db drained) /\
  transactions (db (snd r)) = transactions (db drained) /\
  forall e' form',
    confirmar_operacion e' POST form' (snd r) =
    (flash_redirect NoPendingOperation finance_gestion, snd r).
Proof.
  split; [vm_compute; reflexivity|].
  apply (failed_execution_consumes_code (at_time (2 * one_minute) 0) (code_form "000123")
           drained ana (pending_of staged_30) challenge_1).
  - repeat split; try (vm_compute; reflexivity). vm_compute. discriminate.
  - vm_compute. reflexivity.
Defined.

(** C6, as the code has it. On a successful OTP validation the used flag
    is committed on its own, before the guarded operation runs: that
    commit carries the flag and the ledger as it was.  The operation's
    ledger effects, if any, follow in one later commit, which carries the
    flag too; so a used challenge with an unapplied operation is
    observable, an applied operation with an unused challenge is not. *)
Theorem used_flag_is_committed_first e form w user op otp :
  valid_confirmation e form w user op otp ->
  let w' := snd (confirmar_operacion e POST form w) in
  let marked := mark_used (o_id otp) (db w) in
  OtpCode_by_id_user marked (o_id otp) (u_id user) =
    Some (mkOtpCode (o_id otp) (o_user_id otp) (o_code otp) (o_created_at otp) true) /\
  accounts marked = accounts (db w) /\ transactions marked = transactions (db w) /\
  otp_codes (db w') = otp_codes marked /\
  (commits w' = marked :: commits w /\ db w' = marked
   \/ commits w' = db w' :: marked :: commits w).
Proof.
  intros Hv w' marked. subst w'. rewrite (confirm_valid _ _ _ _ _ _ Hv).
  destruct Hv as [[(Hlog & Hu & Hop & Hid & Hotp & Hused & Hne) Hcode] Hexp].
  split; [apply OtpCode_by_id_user_mark_used, Hotp|].
  split; [reflexivity|]. split; [reflexivity|].
  destruct (execute_pending_frame e user (op_name op) (op_payload op) (consumed otp w))
    as (_ & Hcodes & _ & [Hsame|Hcommit]).
  - rewrite Hsame. split; [reflexivity|]. left. split; reflexivity.
  - split; [exact Hcodes|]. right. exact Hcommit.
Qed.

(** The claim that the used flag and the ledger effects are committed
    together fails: confirming the staged transfer leaves, in the commit
    log, a state where the challenge is used while accounts and
    transactions are those from before the transfer. *)
Lemma used_flag_is_observable_before_transfer :
  let e := at_time one_minute 0 in
  let r := confirmar_operacion e POST (code_form "000123") staged_30 in
  valid_confirmation e (code_form "000123") staged_30 ana (pending_of staged_30) challenge_1 /\
  fst r = flash_redirect InternalTransferDone finance_dashboard /\
  exists s,
    In s (commits (snd r)) /\
    OtpCode_by_id_user s 1 1 = Some (mkOtpCode 1 1 "000123" 0 true) /\
    accounts s = accounts (db staged_30) /\
    transactions s = transactions (db staged_30) /\
    accounts (db (snd r)) <> accounts (db staged_30) /\
    transactions (db (snd r)) <> transactions (db staged_30).
Proof.
  split; [repeat split; try (vm_compute; reflexivity); vm_compute; discriminate|].
  split; [vm_compute; reflexivity|].
  exists (mark_used 1 (db staged_30)).
  split; [vm_compute; auto|].
  repeat split; try (vm_compute; reflexivity); vm_compute; discriminate.
Qed.

(** The same confirmation, as an instance of the theorem. *)
Lemma used_flag_is_committed_first_witness :
  let e := at_time one_minute 0 in
  let w' := snd (confirmar_operacion e POST (code_form "000123") staged_30) in
  let marked := mark_used (o_id challenge_1) (db staged_30) in
  OtpCode_by_id_user marked (o_id challenge_1) (u_id ana) =
    Some (mkOtpCode (o_id challenge_1) (o_user_id challenge_1) (o_code challenge_1)
            (o_created_at challenge_1) true) /\
  accounts marked = accounts (db staged_30) /\
  transactions marked = transactions (db staged_30) /\
  otp_codes (db w') = otp_codes marked /\
  (commits w' = marked :: commits staged_30 /\ db w' = marked
   \/ commits w' = db w' :: marked :: commits staged_30).
Proof.
  apply (used_flag_is_committed_first (at_time one_minute 0) (code_form "000123")
           staged_30 ana (pending_of staged_30) challenge_1).
  repeat split; try (vm_compute; reflexivity). vm_compute. discriminate.
Defined.

(** *** Resending the code *)

Lemma reenviar_spec e w user op :
  pending_session w user op ->
  reenviar_otp_operacion e w = (flash_redirect OtpResent finance_confirmar_operacion, resent e user w).
Proof.
  intros (Hlog & Hu & Hop). unfold reenviar_otp_operacion, login_required.
  destruct (truthy (s_user_id (session w))); [|contradiction].
  rewrite Hop, Hu. reflexivity.
Qed.

Lemma find_app_last {A} (p : A -> bool) (l : list A) (x : A) :
  (forall y, In y l -> p y = false) -> p x = true -> List.find p (l ++ [x]) = Some x.
Proof.
  intros Hl Hx. induction l as [|y l IH]; simpl.
  - rewrite Hx. reflexivity.
  - rewrite (Hl y) by (left; reflexivity). apply IH. intros z Hz. apply Hl. right. exact Hz.
Qed.

Lemma next_id_pos (ids : list Z) : 0 < next_id ids.
Proof. unfold next_id. induction ids; simpl; lia. Qed.

Lemma new_otp_id_fresh e d uid c o :
  In o (otp_codes d) -> o_id o <> o_id (new_otp e d uid c).
Proof.
  intros Hin. cbn. pose proof (next_id_above _ _ (in_map o_id _ _ Hin)). lia.
Qed.

Lemma OtpCode_by_id_user_new e d uid c :
  OtpCode_by_id_user (add_otp (new_otp e d uid c) d) (o_id (new_otp e d uid c)) uid =
  Some (new_otp e d uid c).
Proof.
  unfold OtpCode_by_id_user. cbn [otp_codes add_otp]. apply find_app_last.
  - intros y Hy. apply andb_false_iff. left. apply Z.eqb_neq.
    apply (new_otp_id_fresh e d uid c y Hy).
  - cbn. rewrite !Z.eqb_refl. reflexivity.
Qed.

Lemma generated_code_nonempty e : PyStr.nonempty (_generate_otp_code e) = true.
Proof. reflexivity. Qed.

(** After a resend, the new challenge is the bound one. *)
Lemma resent_bound e w user op :
  pending_session w user op ->
  bound_challenge (resent e user w) user op (resent_otp e user w).
Proof.
  intros (Hlog & Hu & Hop). unfold bound_challenge.
  split; [exact Hlog|]. split; [exact Hu|]. split; [exact Hop|].
  split.
  { cbn [resent session set_session s_pending_operation_otp_id truthy].
    pose proof (next_id_pos (map o_id (otp_codes (db w)))) as Hpos.
    destruct (o_id (resent_otp e user w) =? 0) eqn:E; [|reflexivity].
    apply Z.eqb_eq in E. cbn in E. lia. }
  split; [apply OtpCode_by_id_user_new|].
  split; [reflexivity|apply generated_code_nonempty].
Qed.

(** C3, as the code has it. A correct code for the bound challenge that is
    older than [max_age] gets the Expired failure and changes nothing: the
    pending operation stays in the session, bound as before, and the
    challenge stays unused.  The operation is retried by a resend: the code
    of the challenge the resend issues, submitted in time, runs it. *)
Theorem expired_code_keeps_pending e form w user op otp :
  bound_code_submitted form w user op otp ->
  expired e otp = true ->
  confirmar_operacion e POST form w =
    (flash_redirect OtpExpired finance_confirmar_operacion, w) /\
  forall e1 e2 form2,
    let w1 := snd (reenviar_otp_operacion e1 w) in
    let otp1 := resent_otp e1 user w in
    submitted_code form2 = o_code otp1 ->
    expired e2 otp1 = false ->
    confirmar_operacion e2 POST form2 w1 =
    execute_pending e2 user (op_name op) (op_payload op) (consumed otp1 w1).
Proof.
  intros Hb Hexp. split; [exact (confirm_expired _ _ _ _ _ _ Hb Hexp)|].
  intros e1 e2 form2 w1 otp1 Hcode Hfresh.
  assert (Hp : pending_session w user op)
    by (destruct Hb as [(? & ? & ? & _) _]; repeat split; assumption).
  subst w1. rewrite (reenviar_spec _ _ _ _ Hp). cbn [snd].
  apply confirm_valid. split; [|exact Hfresh].
  split; [apply resent_bound, Hp|exact Hcode].
Qed.

(** The claim that an expired code clears the pending operation fails:
    ten minutes after staging, the right code gets the Expired failure and
    the operation is still in the session. *)
Lemma expired_code_leaves_descriptor :
  let late := at_time (10 * one_minute) 0 in
  let r := confirmar_operacion late POST (code_form "000123") staged_30 in
  bound_code_submitted (code_form "000123") staged_30 ana (pending_of staged_30) challenge_1 /\
  expired late challenge_1 = true /\
  fst r = flash_redirect OtpExpired finance_confirmar_operacion /\
  s_pending_operation (session (snd r)) <> None.
Proof.
  repeat split; try (vm_compute; reflexivity); vm_compute; discriminate.
Qed.

(** The same late confirmation, as an instance of the theorem. *)
Lemma expired_code_keeps_pending_witness :
  let late := at_time (10 * one_minute) 0 in
  confirmar_operacion late POST (code_form "000123") staged_30 =
    (flash_redirect OtpExpired finance_confirmar_operacion, staged_30) /\
  forall e1 e2 form2,
    let w1 := snd (reenviar_otp_operacion e1 staged_30) in
    let otp1 := resent_otp e1 ana staged_30 in
    submitted_code form2 = o_code otp1 ->
    expired e2 otp1 = false ->
    confirmar_operacion e2 POST form2 w1 =
    execute_pending e2 ana (op_name (pending_of staged_30)) (op_payload (pending_of staged_30))
      (consumed otp1 w1).
Proof.
  apply (expired_code_keeps_pending (at_time (10 * one_minute) 0) (code_form "000123")
           staged_30 ana (pending_of staged_30) challenge_1).
  - repeat split; try (vm_compute; reflexivity). vm_compute. discriminate.
  - vm_compute. reflexivity.
Defined.

(** A code other than the bound challenge's is turned away and changes
    nothing. *)
Lemma confirm_wrong_code e form w user op otp :
  bound_challenge w user op otp ->
  submitted_code form <> o_code otp ->
  let r := confirmar_operacion e POST form w in
  snd r = w /\
  (fst r = flash_redirect OtpInvalid finance_confirmar_operacion \/
   fst r = flash_redirect CodeRequired finance_confirmar_operacion).
Proof.
  intros (Hlog & Hu & Hop & Hid & Hotp & Hused & Hne) Hcode r. subst r.
  unfold confirmar_operacion, login_required.
  destruct (truthy (s_user_id (session w))); [|contradiction].
  rewrite Hop, Hid, Hu. fold (submitted_code form).
  destruct (PyStr.nonempty (submitted_code form)); cbn [negb]; [|split; [reflexivity|right; reflexivity]].
  rewrite Hotp, Hused.
  destruct (String.eqb (o_code otp) (submitted_code form)) eqn:E.
  - apply String.eqb_eq in E. congruence.
  - split; [reflexivity|left; reflexivity].
Qed.

(** A confirmation changes the challenges at most by marking the bound
    one. *)
Lemma confirm_otp_codes e m form w :
  let w' := snd (confirmar_operacion e m form w) in
  otp_codes (db w') = otp_codes (db w) \/
  exists i, truthy (s_pending_operation_otp_id (session w)) = Some i /\
            otp_codes (db w') = otp_codes (mark_used i (db w)).
Proof.
  unfold confirmar_operacion, login_required.
  repeat case_match; cbn [snd]; try (left; reflexivity).
  right. eexists. split; [reflexivity|].
  match goal with
  | H : OtpCode_by_id_user _ _ _ = Some _ |- _ =>
      apply OtpCode_by_id_user_id in H as (<- & _ & _)
  end.
  apply execute_pending_frame.
Qed.

(** C8, as the code has it. A resend binds the pending operation to the
    challenge it issues, whose id differs from that of every earlier
    challenge; the earlier challenges are left as they are, and no later
    confirmation of this operation consumes them.  Confirmation is checked
    against the new challenge only: a submitted code that differs from the
    new code is turned away and changes nothing, the new code submitted in
    time runs the operation.  The previous code is thus of no use unless
    the new draw produced the same six digits. *)
Theorem resend_rebinds_to_new_challenge e1 w user op old :
  pending_session w user op ->
  In old (otp_codes (db w)) ->
  let w1 := snd (reenviar_otp_operacion e1 w) in
  let new := resent_otp e1 user w in
  s_pending_operation (session w1) = Some op /\
  s_pending_operation_otp_id (session w1) = Some (o_id new) /\
  o_id new <> o_id old /\
  otp_codes (db w1) = (otp_codes (db w) ++ [new])%list /\
  forall e2 form,
    let r := confirmar_operacion e2 POST form w1 in
    (submitted_code form <> o_code new -> snd r = w1 /\ is_success (fst r) = false) /\
    (submitted_code form = o_code new -> expired e2 new = false ->
     r = execute_pending e2 user (op_name op) (op_payload op) (consumed new w1)) /\
    In old (otp_codes (db (snd r))).
Proof.
  intros Hp Hold w1 new. subst w1. rewrite (reenviar_spec _ _ _ _ Hp). cbn [snd].
  pose proof (resent_bound e1 w user op Hp) as Hb. fold new in Hb.
  assert (Hne : o_id new <> o_id old)
    by (intros E; apply (new_otp_id_fresh e1 (db w) (u_id user) (_generate_otp_code e1) old Hold);
        symmetry; exact E).
  split; [apply Hp|]. split; [reflexivity|]. split; [exact Hne|]. split; [reflexivity|].
  intros e2 form. split; [|split].
  - intros Hcode. destruct (confirm_wrong_code e2 form _ _ _ _ Hb Hcode) as [Hw Hr].
    split; [exact Hw|]. unfold is_success. destruct Hr as [-> | ->]; reflexivity.
  - intros Hcode Hfresh. apply confirm_valid. split; [split; assumption|exact Hfresh].
  - destruct (confirm_otp_codes e2 POST form (resent e1 user w)) as [-> | (i & Hi & ->)].
    + cbn. apply in_app_iff. left. exact Hold.
    + destruct Hb as (_ & _ & _ & Hid & _). rewrite Hid in Hi. injection Hi as <-.
      cbn [otp_codes mark_used]. apply in_map_iff. exists old. split.
      * destruct (o_id old =? o_id new) eqn:E; [apply Z.eqb_eq in E; congruence|].
        change (next_id (map o_id (otp_codes (db w)))) with (o_id new). rewrite E. reflexivity.
      * cbn. apply in_app_iff. left. exact Hold.
Qed.

(** The claim that the previous code can never confirm after a resend
    fails when the new draw repeats it: the operation was bound to
    challenge 1 with code 000123, the resend draws 123 again for challenge
    2, and submitting the code of challenge 1 runs the transfer. *)
Lemma previous_code_confirms_after_colliding_resend :
  let w1 := snd (reenviar_otp_operacion (at_time one_minute 123) staged_30) in
  let r := confirmar_operacion (at_time (2 * one_minute) 0) POST
             (code_form (o_code challenge_1)) w1 in
  s_pending_operation_otp_id (session staged_30) = Some (o_id challenge_1) /\
  In challenge_1 (otp_codes (db staged_30)) /\
  s_pending_operation_otp_id (session w1) = Some 2 /\
  fst r = flash_redirect InternalTransferDone finance_dashboard /\
  transactions (db (snd r)) <> transactions (db staged_30).
Proof.
  repeat split; try (vm_compute; reflexivity).
  - vm_compute. auto.
  - vm_compute. discriminate.
Qed.

(** A resend that draws a different code, as an instance of the theorem. *)
Lemma resend_rebinds_to_new_challenge_witness :
  let e1 := at_time one_minute 456 in
  let w1 := snd (reenviar_otp_operacion e1 staged_30) in
  let new := resent_otp e1 ana staged_30 in
  s_pending_operation (session w1) = Some (pending_of staged_30) /\
  s_pending_operation_otp_id (session w1) = Some (o_id new) /\
  o_id new <> o_id challenge_1 /\
  otp_codes (db w1) = (otp_codes (db staged_30) ++ [new])%list /\
  forall e2 form,
    let r := confirmar_operacion e2 POST form w1 in
    (submitted_code form <> o_code new -> snd r = w1 /\ is_success (fst r) = false) /\
    (submitted_code form = o_code new -> expired e2 new = false ->
     r = execute_pending e2 ana (op_name (pending_of staged_30))
           (op_payload (pending_of staged_30)) (consumed new w1)) /\
    In challenge_1 (otp_codes (db (snd r))).
Proof.
  apply (resend_rebinds_to_new_challenge (at_time one_minute 456) staged_30 ana
           (pending_of staged_30) challenge_1).
  - repeat split; try (vm_compute; reflexivity). vm_compute. discriminate.
  - vm_compute. auto.
Defined.

(** ** Login-time OTP *)

Lemma insert_desc_In o l x : In x (insert_desc o l) <-> x = o \/ In x l.
Proof.
  induction l as [|p r IH]; simpl.
  - intuition.
  - destruct (o_created_at p <=? o_created_at o); simpl; [intuition|].
    rewrite IH. intuition.
Qed.

Lemma order_by_created_at_desc_In l x : In x (order_by_created_at_desc l) <-> In x l.
Proof.
  induction l as [|a l IH]; simpl; [tauto|].
  rewrite insert_desc_In, IH. intuition.
Qed.

(** The first row of the ordered query is a row of the table, and no row
    is more recent. *)
Lemma order_by_created_at_desc_head l o :
  head (order_by_created_at_desc l) = Some o ->
  In o l /\ forall x, In x l -> o_created_at x <= o_created_at o.
Proof.
  revert o. induction l as [|a l IH]; simpl; intros o H; [discriminate|].
  destruct (order_by_created_at_desc l) as [|p r] eqn:E; simpl in H.
  - injection H as <-. split; [left; reflexivity|].
    intros x [<-|Hx]; [lia|].
    apply order_by_created_at_desc_In in Hx. rewrite E in Hx. destruct Hx.
  - destruct (IH p eq_refl) as [Hp Hmax].
    destruct (o_created_at p <=? o_created_at a) eqn:C; simpl in H; injection H as <-.
    + apply Z.leb_le in C. split; [left; reflexivity|].
      intros x [<-|Hx]; [lia|]. specialize (Hmax x Hx). lia.
    + apply Z.leb_gt in C. split; [right; exact Hp|].
      intros x [<-|Hx]; [lia|exact (Hmax x Hx)].
Qed.

(** C4, as the code has it. At login a submitted code succeeds only if it
    is the code of some unused challenge of that user, not necessarily the
    latest one the user holds: the query keeps the unused challenges that
    carry the submitted code and takes the most recent of those, which
    must not be older than [max_age]; that challenge is the one consumed. *)
Theorem login_code_matches_an_unused_challenge e form w w' :
  verify_otp e POST form w = (flash_redirect MfaDone finance_dashboard, w') ->
  exists uid otp,
    truthy (s_pending_otp_user_id (session w)) = Some uid /\
    In otp (otp_codes (db w)) /\
    o_user_id otp = uid /\ o_used otp = false /\ o_code otp = submitted_code form /\
    expired e otp = false /\
    (forall o, In o (otp_codes (db w)) ->
               o_user_id o = uid -> o_used o = false -> o_code o = submitted_code form ->
               o_created_at o <= o_created_at otp) /\
    db w' = mark_used (o_id otp) (db w) /\
    s_user_id (session w') = Some uid /\ s_pending_otp_user_id (session w') = None.
Proof.
  unfold verify_otp. fold (submitted_code form). intros H.
  destruct (truthy (s_pending_otp_user_id (session w))) as [uid|] eqn:Huid; [|discriminate].
  destruct (User_get (db w) (Some uid)) as [user|] eqn:Hu; [|discriminate].
  destruct (negb (PyStr.nonempty (submitted_code form))); [discriminate|].
  destruct (OtpCode_latest_unused (db w) (u_id user) (submitted_code form)) as [otp|] eqn:Ho;
    [|discriminate].
  destruct (expired e otp) eqn:Hexp; [discriminate|].
  injection H as <-.
  assert (Hid : u_id user = uid) by (apply find_some in Hu as [_ Hu]; lia).
  apply order_by_created_at_desc_head in Ho as [Hin Hmax].
  apply filter_In in Hin as [Hin Hp].
  apply andb_true_iff in Hp as [Hp Hunused]. apply andb_true_iff in Hp as [Huser Hcode].
  exists uid, otp. split; [reflexivity|]. split; [exact Hin|].
  split; [lia|]. split; [destruct (o_used otp); [discriminate|reflexivity]|].
  split; [apply String.eqb_eq, Hcode|]. split; [exact Hexp|].
  split.
  { intros o Ho Hou Hounused Hocode. apply Hmax. apply filter_In. split; [exact Ho|].
    rewrite Hounused, Hocode, String.eqb_refl. cbn. rewrite andb_true_r. lia. }
  split; [reflexivity|]. cbn. rewrite Hid. split; reflexivity.
Qed.

(** The claim that only the latest unused challenge's code succeeds at
    login fails: Ana holds the unused challenges 111111 (older) and 222222
    (latest), and the older code logs her in. *)
Lemma older_login_code_is_accepted :
  let r := verify_otp (at_time (2 * one_minute) 0) POST (code_form "111111") two_codes in
  let latest := mkOtpCode 2 1 "222222" one_minute false in
  In latest (otp_codes (db two_codes)) /\
  (forall o, In o (otp_codes (db two_codes)) -> o_user_id o = 1 -> o_used o = false ->
             o_created_at o <= o_created_at latest) /\
  submitted_code (code_form "111111") <> o_code latest /\
  fst r = flash_redirect MfaDone finance_dashboard.
Proof.
  split; [right; left; reflexivity|]. split.
  - intros o [<-|[<-|[]]] _ _; vm_compute; discriminate.
  - split; [vm_compute; discriminate|vm_compute; reflexivity].
Qed.

(** The same login, as an instance of the theorem. *)
Lemma login_code_matches_an_unused_challenge_witness :
  let e := at_time (2 * one_minute) 0 in
  let form := code_form "111111" in
  let w' := snd (verify_otp e POST form two_codes) in
  exists uid otp,
    truthy (s_pending_otp_user_id (session two_codes)) = Some uid /\
    In otp (otp_codes (db two_codes)) /\
    o_user_id otp = uid /\ o_used otp = false /\ o_code otp = submitted_code form /\
    expired e otp = false /\
    (forall o, In o (otp_codes (db two_codes)) ->
               o_user_id o = uid -> o_used o = false -> o_code o = submitted_code form ->
               o_created_at o <= o_created_at otp) /\
    db w' = mark_used (o_id otp) (db two_codes) /\
    s_user_id (session w') = Some uid /\ s_pending_otp_user_id (session w') = None.
Proof.
  intros e form w'.
  apply (login_code_matches_an_unused_challenge e form two_codes w').
  vm_compute. reflexivity.
Defined.

(** ** Staging an open-account request *)

(** Staging never writes to the ledger tables. *)
Lemma create_account_staging_ledger e form w :
  accounts (db (snd (create_account e form w))) = accounts (db w) /\
  transactions (db (snd (create_account e form w))) = transactions (db w).
Proof.
  unfold create_account, login_required. repeat case_match; split; reflexivity.
Qed.

(** A string that is not a decimal is rejected before any state change. *)
Lemma create_account_rejects_unparsable e form w :
  PyDecimal.Decimal (staged_initial_balance form) = None ->
  snd (create_account e form w) = w.
Proof.
  intros H. unfold create_account, login_required. fold (staged_initial_balance form).
  rewrite H. repeat case_match; reflexivity.
Qed.




(** ** Registration *)

Section Registration.
Variable hash_password : string -> string.

(** C10. Every successful registration creates, with no OTP involved,
    exactly one account for the new user, named "Cuenta Ahorros
    Principal", with balance 1,500,000 and the default bank type, and
    exactly one transaction of +1,500,000 on that account; the new user
    therefore has an account from the start. *)
Theorem registration_opens_a_funded_account e m form w w' :
  register hash_password e m form w = ((None, Render tpl_email_verification_sent), w') ->
  exists user acc tx,
    users (db w') = (users (db w) ++ [user])%list /\
    ~ In (u_id user) (map u_id (users (db w))) /\
    accounts (db w') = (accounts (db w) ++ [acc])%list /\
    acc = mkAccount (next_id (map a_id (accounts (db w)))) (u_id user)
            "OTRO" "Cuenta Ahorros Principal" 1500000 /\
    transactions (db w') = (transactions (db w) ++ [tx])%list /\
    t_account_id tx = a_id acc /\ t_amount tx = 1500000%Q /\
    otp_codes (db w') = otp_codes (db w) /\
    session w' = session w /\ truthy (s_user_id (session w)) = None /\
    Account_first_of_user (db w') (u_id user) <> None /\
    ((forall a, In a (accounts (db w)) -> In (a_user_id a) (map u_id (users (db w)))) ->
     List.filter (fun a => a_user_id a =? u_id user) (accounts (db w')) = [acc]).
Proof.
  unfold register. intros H.
  destruct (truthy (s_user_id (session w))) eqn:Hlog; [discriminate|].
  destruct m; [discriminate|].
  destruct (_ || _); [discriminate|].
  destruct (User_by_email (db w) _); [discriminate|].
  injection H as <-. eexists _, _, _.
  split; [reflexivity|]. split; [apply next_id_fresh|].
  split; [reflexivity|]. split; [reflexivity|].
  split; [reflexivity|]. split; [reflexivity|]. split; [reflexivity|].
  split; [reflexivity|]. split; [reflexivity|]. split; [reflexivity|].
  cbn [db commit set_db add_all_transactions add_account add_user accounts users u_id a_user_id].
  split.
  - intros Hnone. unfold Account_first_of_user in Hnone. cbn [accounts] in Hnone.
    eapply find_none in Hnone; [|apply in_app_iff; right; left; reflexivity].
    cbn in Hnone. rewrite Z.eqb_refl in Hnone. discriminate.
  - intros Hfk. rewrite List.filter_app. cbn [List.filter a_user_id]. rewrite Z.eqb_refl.
    rewrite filter_none; [reflexivity|].
    intros a Ha. apply Z.eqb_neq. intros E.
    apply (next_id_fresh (map u_id (users (db w)))). rewrite <- E. apply Hfk, Ha.
Qed.

End Registration.

(** The first registration on an empty database. *)
Lemma registration_opens_a_funded_account_witness :
  let form : gmap string string := <["email" := "Ana@X.com "]> (<["password" := "secret"]> ∅) in
  let w := mkWorld empty_db [] empty_session in
  let w' := snd (register identity_hash (at_time 0 0) POST form w) in
  exists user acc tx,
    users (db w') = (users (db w) ++ [user])%list /\
    ~ In (u_id user) (map u_id (users (db w))) /\
    accounts (db w') = (accounts (db w) ++ [acc])%list /\
    acc = mkAccount (next_id (map a_id (accounts (db w)))) (u_id user)
            "OTRO" "Cuenta Ahorros Principal" 1500000 /\
    transactions (db w') = (transactions (db w) ++ [tx])%list /\
    t_account_id tx = a_id acc /\ t_amount tx = 1500000%Q /\
    otp_codes (db w') = otp_codes (db w) /\
    session w' = session w /\ truthy (s_user_id (session w)) = None /\
    Account_first_of_user (db w') (u_id user) <> None /\
    ((forall a, In a (accounts (db w)) -> In (a_user_id a) (map u_id (users (db w)))) ->
     List.filter (fun a => a_user_id a =? u_id user) (accounts (db w')) = [acc]).
Proof.
  intros form w w'.
  apply (registration_opens_a_funded_account identity_hash (at_time 0 0) POST form w w').
  vm_compute. reflexivity.
Defined.

(** ** Re-validation at confirmation time *)

(** *** [strip] and [lower] are idempotent *)

Lemma rstrip_cons c r :
  PyStr.rstrip (String c r) =
  match PyStr.rstrip r with
  | EmptyString => if PyStr.is_space c then EmptyString else String c EmptyString
  | r' => String c r'
  end.
Proof. reflexivity. Qed.

Lemma rstrip_rstrip s : PyStr.rstrip (PyStr.rstrip s) = PyStr.rstrip s.
Proof.
  induction s as [|c r IH]; [reflexivity|]. rewrite rstrip_cons.
  destruct (PyStr.rstrip r) as [|a b] eqn:E.
  - destruct (PyStr.is_space c) eqn:Ec; [reflexivity|]. cbn. rewrite Ec. reflexivity.
  - rewrite rstrip_cons, IH. reflexivity.
Qed.

Lemma lstrip_head s :
  match PyStr.lstrip s with
  | String c _ => PyStr.is_space c = false
  | EmptyString => True
  end.
Proof.
  induction s as [|c r IH]; [exact I|]. cbn [PyStr.lstrip].
  destruct (PyStr.is_space c) eqn:Ec; [exact IH|exact Ec].
Qed.

Lemma lstrip_strip s : PyStr.lstrip (PyStr.strip s) = PyStr.strip s.
Proof.
  unfold PyStr.strip. pose proof (lstrip_head s) as H.
  destruct (PyStr.lstrip s) as [|c r]; [reflexivity|].
  rewrite rstrip_cons. destruct (PyStr.rstrip r); [rewrite H|]; cbn; rewrite H; reflexivity.
Qed.

Lemma strip_strip s : PyStr.strip (PyStr.strip s) = PyStr.strip s.
Proof.
  unfold PyStr.strip at 1. rewrite lstrip_strip. unfold PyStr.strip. apply rstrip_rstrip.
Qed.

Lemma is_space_lower_char c : PyStr.is_space (PyStr.lower_char c) = PyStr.is_space c.
Proof. destruct c as [[] [] [] [] [] [] [] []]; reflexivity. Qed.

Lemma lower_char_lower_char c : PyStr.lower_char (PyStr.lower_char c) = PyStr.lower_char c.
Proof. destruct c as [[] [] [] [] [] [] [] []]; reflexivity. Qed.

Lemma lower_lower s : PyStr.lower (PyStr.lower s) = PyStr.lower s.
Proof.
  induction s as [|c r IH]; [reflexivity|]. cbn [PyStr.lower].
  rewrite lower_char_lower_char, IH. reflexivity.
Qed.

Lemma lower_lstrip s : PyStr.lower (PyStr.lstrip s) = PyStr.lstrip (PyStr.lower s).
Proof.
  induction s as [|c r IH]; [reflexivity|]. cbn [PyStr.lstrip PyStr.lower].
  rewrite is_space_lower_char. destruct (PyStr.is_space c); [exact IH|reflexivity].
Qed.

Lemma lower_rstrip s : PyStr.lower (PyStr.rstrip s) = PyStr.rstrip (PyStr.lower s).
Proof.
  induction s as [|c r IH]; [reflexivity|]. cbn [PyStr.lower].
  rewrite !rstrip_cons, <- IH, is_space_lower_char.
  destruct (PyStr.rstrip r); cbn [PyStr.lower]; [destruct (PyStr.is_space c)|]; reflexivity.
Qed.

Lemma strip_lower_idem s :
  PyStr.strip (PyStr.lower (PyStr.strip (PyStr.lower s))) = PyStr.strip (PyStr.lower s).
Proof.
  unfold PyStr.strip at 2. rewrite lower_rstrip, lower_lstrip, lower_lower.
  apply strip_strip.
Qed.

Lemma or_else_some s : PyStr.or_else (Some s) "" = s.
Proof. destruct s; reflexivity. Qed.

(** The amount string kept in the payload is read back to the same
    amount. *)
Lemma parse_amount_staged s :
  parse_amount (Some (PyStr.strip s)) = positive_decimal (PyStr.strip s).
Proof. unfold parse_amount. rewrite or_else_some, strip_strip. reflexivity. Qed.

(** *** The balance check of the executors *)

Lemma ltb_lt (a b : Q) : (a < b)%Q -> PyDecimal.ltb a b = true.
Proof.
  intros H. unfold PyDecimal.ltb. destruct (Qle_bool b a) eqn:E; [|reflexivity].
  apply Qle_bool_iff in E. exfalso. exact (Qlt_not_le _ _ H E).
Qed.

Lemma _execute_transfer_internal_short e user from_id to_id raw description w amount from_acc :
  from_id <> to_id ->
  parse_amount raw = Some amount ->
  Account_by_id_user (db w) from_id (u_id user) = Some from_acc ->
  Account_by_id_user (db w) to_id (u_id user) <> None ->
  (a_balance from_acc < amount)%Q ->
  _execute_transfer_internal e user from_id to_id raw description w =
  (flash_redirect InsufficientFunds finance_dashboard, w).
Proof.
  intros Hne Hamt Hf Ht Hlt. unfold _execute_transfer_internal.
  rewrite bool_decide_eq_false_2 by exact Hne. rewrite Hamt, Hf.
  destruct (Account_by_id_user (db w) to_id (u_id user)); [|contradiction].
  rewrite (ltb_lt _ _ Hlt). reflexivity.
Qed.

Lemma _execute_transfer_external_short e user from_id email raw description w amount from_acc :
  PyStr.nonempty email = true ->
  parse_amount raw = Some amount ->
  Account_by_id_user (db w) from_id (u_id user) = Some from_acc ->
  (a_balance from_acc < amount)%Q ->
  _execute_transfer_external e user from_id email raw description w =
  (flash_redirect InsufficientFunds finance_dashboard, w).
Proof.
  intros Hne Hamt Hf Hlt. unfold _execute_transfer_external.
  rewrite Hne, Hamt, Hf, (ltb_lt _ _ Hlt). reflexivity.
Qed.

(** *** What a staged transfer leaves in the session *)

(** A staged internal transfer passed every preliminary check, the
    balance check included. *)
Lemma transfer_internal_staged e form w w1 :
  transfer_internal e form w =
    (flash_redirect OtpSentTransferInternal finance_confirmar_operacion, w1) ->
  exists user amount from_acc to_acc,
    User_get (db w) (s_user_id (session w)) = Some user /\
    form_get form "from_account_id" <> form_get form "to_account_id" /\
    positive_decimal (PyStr.strip (form_get_or form "amount" "")) = Some amount /\
    Account_by_id_user (db w) (form_get form "from_account_id") (u_id user) = Some from_acc /\
    Account_by_id_user (db w) (form_get form "to_account_id") (u_id user) = Some to_acc /\
    PyDecimal.ltb (a_balance from_acc) amount = false /\
    w1 = _start_operation_otp e user "transfer_internal" (internal_payload form)
           "Transferencia interna" w.
Proof.
  unfold transfer_internal, login_required. intros H.
  repeat case_match; try discriminate. injection H as <-.
  eexists _, _, _, _. split; [reflexivity|].
  split; [eapply bool_decide_eq_false; eassumption|].
  split; [reflexivity|]. split; [eassumption|]. split; [eassumption|].
  split; [eassumption|]. reflexivity.
Qed.

Lemma transfer_external_staged e form w w1 :
  transfer_external e form w =
    (flash_redirect OtpSentTransferExternal finance_confirmar_operacion, w1) ->
  exists user amount from_acc,
    User_get (db w) (s_user_id (session w)) = Some user /\
    PyStr.nonempty (PyStr.strip (PyStr.lower (form_get_or form "recipient_email" ""))) = true /\
    positive_decimal (PyStr.strip (form_get_or form "amount" "")) = Some amount /\
    Account_by_id_user (db w) (form_get form "from_account_id") (u_id user) = Some from_acc /\
    PyDecimal.ltb (a_balance from_acc) amount = false /\
    w1 = _start_operation_otp e user "transfer_external" (external_payload form)
           "Transferencia a otro usuario" w.
Proof.
  unfold transfer_external, login_required. intros H.
  repeat case_match; try discriminate. injection H as <-.
  eexists _, _, _. split; [reflexivity|].
  split; [apply negb_false_iff; eassumption|].
  split; [reflexivity|]. split; [eassumption|]. split; [eassumption|]. reflexivity.
Qed.

Lemma Account_by_id_user_persist d d' i uid a :
  accounts_persist d d' ->
  Account_by_id_user d i uid = Some a -> Account_by_id_user d' i uid <> None.
Proof.
  unfold Account_by_id_user. intros Hp H. destruct (sql_int i) as [n|]; [|discriminate].
  apply find_some in H as [Hin Hpred].
  destruct (Hp a Hin) as (a' & Hin' & Hid & Hown).
  destruct (find_In_some (fun a => (a_id a =? n) && (a_user_id a =? uid)) _ a' Hin') as [y Hy].
  - rewrite Hid, Hown. exact Hpred.
  - rewrite Hy. discriminate.
Qed.

Lemma User_get_id d i u : User_get d i = Some u -> i = Some (u_id u).
Proof.
  unfold User_get. destruct i as [n|]; [|discriminate].
  intros H. apply find_some in H as [_ H]. f_equal. lia.
Qed.

Lemma execute_pending_internal e user payload w :
  execute_pending e user "transfer_internal" payload w =
  _execute_transfer_internal e user
    (payload_get payload "from_account_id") (payload_get payload "to_account_id")
    (payload_get_or payload "amount" "")
    (PyStr.str_or (PyStr.strip (PyStr.or_else (payload_get payload "description") ""))
       "Transferencia interna") w.
Proof. reflexivity. Qed.

Lemma execute_pending_external e user payload w :
  execute_pending e user "transfer_external" payload w =
  _execute_transfer_external e user
    (payload_get payload "from_account_id")
    (PyStr.strip (PyStr.lower (PyStr.or_else (payload_get payload "recipient_email") "")))
    (payload_get_or payload "amount" "")
    (PyStr.str_or (PyStr.strip (PyStr.or_else (payload_get payload "description") ""))
       "Transferencia a otro usuario") w.
Proof. reflexivity. Qed.

(** C7. A transfer was staged, so its preliminary checks, the balance
    check among them, had passed.  If by the time the same session
    confirms it with a valid code the source account holds less than the
    staged amount, the confirmation fails with InsufficientFunds and
    leaves every account balance and the transaction history as they
    were. *)
Theorem confirmation_rechecks_the_balance
    e0 form0 w0 w1 e form w user op otp amount from_acc :
  transfer_internal e0 form0 w0 =
    (flash_redirect OtpSentTransferInternal finance_confirmar_operacion, w1)
  \/ transfer_external e0 form0 w0 =
    (flash_redirect OtpSentTransferExternal finance_confirmar_operacion, w1) ->
  session w = session w1 ->
  accounts_persist (db w0) (db w) ->
  valid_confirmation e form w user op otp ->
  positive_decimal (PyStr.strip (form_get_or form0 "amount" "")) = Some amount ->
  Account_by_id_user (db w) (form_get form0 "from_account_id") (u_id user) = Some from_acc ->
  (a_balance from_acc < amount)%Q ->
  let r := confirmar_operacion e POST form w in
  fst r = flash_redirect InsufficientFunds finance_dashboard /\
  accounts (db (snd r)) = accounts (db w) /\
  transactions (db (snd r)) = transactions (db w).
Proof.
  intros Hst Hsess Hpers Hv Hamt Hfrom Hlt r. subst r.
  rewrite (confirm_valid _ _ _ _ _ _ Hv).
  destruct Hv as [[(_ & Hu & Hop & _) _] _].
  rewrite Hsess in Hu, Hop.
  destruct Hst as [Hst|Hst].
  - apply transfer_internal_staged in Hst
      as (user0 & amount0 & from0 & to0 & Hu0 & Hne & _ & _ & Hto0 & _ & ->).
    cbn in Hop. injection Hop as <-. cbn [op_name op_payload].
    cbn [_start_operation_otp session set_session commit set_db s_user_id db] in Hu.
    apply User_get_id in Hu0. apply User_get_id in Hu. rewrite Hu0 in Hu.
    injection Hu as Hid.
    rewrite execute_pending_internal.
    rewrite (_execute_transfer_internal_short e user _ _ _ _ (consumed otp w) amount from_acc).
    + repeat split; reflexivity.
    + exact Hne.
    + change (payload_get_or (internal_payload form0) "amount" "")
        with (Some (PyStr.strip (form_get_or form0 "amount" ""))).
      rewrite parse_amount_staged. exact Hamt.
    + exact Hfrom.
    + rewrite <- Hid. exact (Account_by_id_user_persist _ (db w) _ _ _ Hpers Hto0).
    + exact Hlt.
  - apply transfer_external_staged in Hst
      as (user0 & amount0 & from0 & Hu0 & Hmail & _ & _ & _ & ->).
    cbn in Hop. injection Hop as <-. cbn [op_name op_payload].
    rewrite execute_pending_external.
    rewrite (_execute_transfer_external_short e user _ _ _ _ (consumed otp w) amount from_acc).
    + repeat split; reflexivity.
    + change (payload_get (external_payload form0) "recipient_email")
        with (Some (PyStr.strip (PyStr.lower (form_get_or form0 "recipient_email" "")))).
      rewrite or_else_some, strip_lower_idem. exact Hmail.
    + change (payload_get_or (external_payload form0) "amount" "")
        with (Some (PyStr.strip (form_get_or form0 "amount" ""))).
      rewrite parse_amount_staged. exact Hamt.
    + exact Hfrom.
    + exact Hlt.
Qed.

(** Ana stages 30.00 from A while A holds 50.00; 40.00 then leave A for Bob;
    the confirmation of the staged transfer finds 10.00 and refuses. *)
Lemma confirmation_rechecks_the_balance_witness :
  let r := confirmar_operacion (at_time (2 * one_minute) 0) POST (code_form "000123") drained in
  fst r = flash_redirect InsufficientFunds finance_dashboard /\
  accounts (db (snd r)) = accounts (db drained) /\
  transactions (db (snd r)) = transactions (db drained).
Proof.
  apply (confirmation_rechecks_the_balance (at_time 0 123) (transfer_form "1" "2" "30.00")
           base staged_30 (at_time (2 * one_minute) 0) (code_form "000123") drained
           ana (pending_of staged_30) challenge_1 30.00%Q
           (mkAccount 1 1 "OTRO" "Cuenta Ahorros Principal" (50 - 40))).
  - left. vm_compute. reflexivity.
  - vm_compute. reflexivity.
  - intros a [<-|[<-|[<-|[]]]];
      [exists (nth 0 (accounts (db drained)) acc_a)
      |exists (nth 1 (accounts (db drained)) acc_a)
      |exists (nth 2 (accounts (db drained)) acc_a)];
      vm_compute; auto 6.
  - repeat split; try (vm_compute; reflexivity). vm_compute. discriminate.
  - vm_compute. reflexivity.
  - vm_compute. reflexivity.
  - vm_compute. reflexivity.
Defined.

(** * Further properties of the handlers *)

(** ** The pending operation and its challenge *)

(** X1. Without a logged-in session no finance route acts: staging,
    confirmation, cancellation, resend and the three views all answer with
    the redirect to the login page, and the world stays as it was. *)
Theorem finance_routes_require_login e m form account_id w :
  truthy (s_user_id (session w)) = None ->
  create_account e form w = (flash_redirect LoginRequired auth_login, w) /\
  transfer_internal e form w = (flash_redirect LoginRequired auth_login, w) /\
  transfer_external e form w = (flash_redirect LoginRequired auth_login, w) /\
  confirmar_operacion e m form w = (flash_redirect LoginRequired auth_login, w) /\
  cancelar_operacion w = (flash_redirect LoginRequired auth_login, w) /\
  reenviar_otp_operacion e w = (flash_redirect LoginRequired auth_login, w) /\
  dashboard w = Answered (flash_redirect LoginRequired auth_login) /\
  gestion w = Answered (flash_redirect LoginRequired auth_login) /\
  movimientos account_id w = Answered (flash_redirect LoginRequired auth_login).
Proof.
  intros H.
  unfold create_account, transfer_internal, transfer_external, confirmar_operacion,
    cancelar_operacion, reenviar_otp_operacion, dashboard, gestion, movimientos,
    login_required, login_required_view.
  rewrite H. repeat split; reflexivity.
Qed.

(** A session that never logged in. *)
Lemma finance_routes_require_login_witness :
  let w := mkWorld base_db [] empty_session in
  let e := at_time 0 0 in
  let form := transfer_form "1" "2" "30.00" in
  create_account e form w = (flash_redirect LoginRequired auth_login, w) /\
  transfer_internal e form w = (flash_redirect LoginRequired auth_login, w) /\
  transfer_external e form w = (flash_redirect LoginRequired auth_login, w) /\
  confirmar_operacion e POST form w = (flash_redirect LoginRequired auth_login, w) /\
  cancelar_operacion w = (flash_redirect LoginRequired auth_login, w) /\
  reenviar_otp_operacion e w = (flash_redirect LoginRequired auth_login, w) /\
  dashboard w = Answered (flash_redirect LoginRequired auth_login) /\
  gestion w = Answered (flash_redirect LoginRequired auth_login) /\
  movimientos 1 w = Answered (flash_redirect LoginRequired auth_login).
Proof.
  apply (finance_routes_require_login (at_time 0 0) POST (transfer_form "1" "2" "30.00") 1
           (mkWorld base_db [] empty_session)).
  reflexivity.
Defined.

(** X2. A confirmation needs both the pending operation and the id of its
    challenge in the session; when either is missing, a GET as well as a
    POST is answered with NoPendingOperation and nothing changes.  A
    resend without a pending operation issues no challenge. *)
Theorem nothing_pending_nothing_confirmed e m form w :
  truthy (s_user_id (session w)) <> None ->
  s_pending_operation (session w) = None \/
  truthy (s_pending_operation_otp_id (session w)) = None ->
  confirmar_operacion e m form w = (flash_redirect NoPendingOperation finance_gestion, w) /\
  (s_pending_operation (session w) = None ->
   reenviar_otp_operacion e w = (flash_redirect NoPendingToResend finance_gestion, w)).
Proof.
  intros Hlog H. unfold confirmar_operacion, reenviar_otp_operacion, login_required.
  destruct (truthy (s_user_id (session w))); [|contradiction]. split.
  - destruct H as [-> | ->]; [reflexivity|].
    destruct (s_pending_operation (session w)); reflexivity.
  - intros ->. reflexivity.
Qed.

(** Ana is logged in and has staged nothing. *)
Lemma nothing_pending_nothing_confirmed_witness :
  confirmar_operacion (at_time 0 0) POST (code_form "000123") base =
    (flash_redirect NoPendingOperation finance_gestion, base) /\
  (s_pending_operation (session base) = None ->
   reenviar_otp_operacion (at_time 0 0) base =
     (flash_redirect NoPendingToResend finance_gestion, base)).
Proof.
  apply (nothing_pending_nothing_confirmed (at_time 0 0) POST (code_form "000123") base).
  - vm_compute. discriminate.
  - left. reflexivity.
Defined.

(** X3. The bound challenge is looked up by its id and by the session
    user.  When a code is submitted and no such challenge exists -- the id
    names no row, or a row of another user -- or the challenge is already
    used, the answer is OtpUsedOrMissing, the pending operation is dropped
    from the session and the database is not written. *)
Theorem used_or_foreign_challenge_drops_operation e form w user op i :
  truthy (s_user_id (session w)) <> None ->
  User_get (db w) (s_user_id (session w)) = Some user ->
  s_pending_operation (session w) = Some op ->
  truthy (s_pending_operation_otp_id (session w)) = Some i ->
  PyStr.nonempty (submitted_code form) = true ->
  (forall otp, OtpCode_by_id_user (db w) i (u_id user) = Some otp -> o_used otp = true) ->
  let r := confirmar_operacion e POST form w in
  fst r = flash_redirect OtpUsedOrMissing finance_gestion /\
  db (snd r) = db w /\ commits (snd r) = commits w /\
  s_pending_operation (session (snd r)) = None /\
  s_pending_operation_otp_id (session (snd r)) = None /\
  s_user_id (session (snd r)) = s_user_id (session w).
Proof.
  intros Hlog Hu Hop Hid Hcode Hotp r. subst r.
  unfold confirmar_operacion, login_required.
  destruct (truthy (s_user_id (session w))); [|contradiction].
  rewrite Hop, Hid, Hu. fold (submitted_code form). rewrite Hcode. cbn [negb].
  destruct (OtpCode_by_id_user (db w) i (u_id user)) as [otp|] eqn:E.
  - rewrite (Hotp otp eq_refl). repeat split; reflexivity.
  - repeat split; reflexivity.
Qed.

(** The session of the staged transfer, presented again after the
    transfer was confirmed. *)
Lemma used_or_foreign_challenge_drops_operation_witness :
  let r := confirmar_operacion (at_time (2 * one_minute) 0) POST (code_form "000123") replay_30 in
  fst r = flash_redirect OtpUsedOrMissing finance_gestion /\
  db (snd r) = db replay_30 /\ commits (snd r) = commits replay_30 /\
  s_pending_operation (session (snd r)) = None /\
  s_pending_operation_otp_id (session (snd r)) = None /\
  s_user_id (session (snd r)) = s_user_id (session replay_30).
Proof.
  apply (used_or_foreign_challenge_drops_operation (at_time (2 * one_minute) 0)
           (code_form "000123") replay_30 ana (pending_of staged_30) 1).
  - vm_compute. discriminate.
  - vm_compute. reflexivity.
  - vm_compute. reflexivity.
  - vm_compute. reflexivity.
  - vm_compute. reflexivity.
  - intros otp H. vm_compute in H. injection H as <-. reflexivity.
Defined.

(** X4. Wrong or blank codes are never counted: after any number of
    attempts that do not submit the code of the bound challenge, the world
    is exactly as before, and the right code, submitted in time, still runs
    the operation. *)
Theorem wrong_codes_are_not_counted tries e form w user op otp :
  bound_challenge w user op otp ->
  Forall (fun t => submitted_code (snd t) <> o_code otp) tries ->
  submit_codes tries w = w /\
  (submitted_code form = o_code otp -> expired e otp = false ->
   confirmar_operacion e POST form (submit_codes tries w) =
   execute_pending e user (op_name op) (op_payload op) (consumed otp w)).
Proof.
  intros Hb Htries.
  assert (Hsame : submit_codes tries w = w).
  { induction Htries as [|[e1 f1] rest Hwrong _ IH]; [reflexivity|].
    cbn [submit_codes]. rewrite (proj1 (confirm_wrong_code e1 f1 w user op otp Hb Hwrong)).
    exact IH. }
  split; [exact Hsame|]. intros Hcode Hfresh. rewrite Hsame.
  apply confirm_valid. split; [split; assumption|exact Hfresh].
Qed.

(** Three wrong attempts on the staged transfer, then the right code. *)
Lemma wrong_codes_are_not_counted_witness :
  let tries := [(at_time 1 0, code_form "000000"); (at_time 2 0, code_form "");
                (at_time 3 0, code_form "123")] in
  let e := at_time one_minute 0 in
  submit_codes tries staged_30 = staged_30 /\
  (submitted_code (code_form "000123") = o_code challenge_1 -> expired e challenge_1 = false ->
   confirmar_operacion e POST (code_form "000123") (submit_codes tries staged_30) =
   execute_pending e ana (op_name (pending_of staged_30)) (op_payload (pending_of staged_30))
     (consumed challenge_1 staged_30)).
Proof.
  apply (wrong_codes_are_not_counted
           [(at_time 1 0, code_form "000000"); (at_time 2 0, code_form "");
            (at_time 3 0, code_form "123")]
           (at_time one_minute 0) (code_form "000123") staged_30 ana
           (pending_of staged_30) challenge_1).
  - repeat split; try (vm_compute; reflexivity). vm_compute. discriminate.
  - repeat constructor; vm_compute; discriminate.
Defined.

(** X5. A challenge validates once.  After a confirmation that passed the
    OTP check, whether or not the operation then succeeded, presenting the
    same session and the same code again -- the session is what the
    browser sends -- is answered with OtpUsedOrMissing and writes nothing
    to the database: the operation is not executed a second time. *)
Theorem consumed_code_cannot_be_replayed e form w user op otp e' :
  valid_confirmation e form w user op otp ->
  let w' := snd (confirmar_operacion e POST form w) in
  let r := confirmar_operacion e' POST form (set_session (session w) w') in
  fst r = flash_redirect OtpUsedOrMissing finance_gestion /\
  db (snd r) = db w' /\ commits (snd r) = commits w'.
Proof.
  intros Hv w' r. subst r w'. rewrite (confirm_valid _ _ _ _ _ _ Hv).
  destruct Hv as [[(Hlog & Hu & Hop & Hid & Hotp & Hused & Hne) Hcode] Hexp].
  destruct (execute_pending_frame e user (op_name op) (op_payload op) (consumed otp w))
    as (Husers & Hcodes & _ & _).
  set (w' := snd (execute_pending e user (op_name op) (op_payload op) (consumed otp w))) in *.
  assert (Hu' : User_get (db w') (s_user_id (session w)) = Some user).
  { unfold User_get in *. rewrite Husers. exact Hu. }
  assert (Hotp' : OtpCode_by_id_user (db w') (o_id otp) (u_id user) =
                  Some (mkOtpCode (o_id otp) (o_user_id otp) (o_code otp) (o_created_at otp) true)).
  { unfold OtpCode_by_id_user. rewrite Hcodes.
    exact (OtpCode_by_id_user_mark_used (db w) (o_id otp) (u_id user) otp Hotp). }
  unfold confirmar_operacion, login_required. cbn [session set_session db commits].
  destruct (truthy (s_user_id (session w))); [|contradiction].
  rewrite Hop, Hid, Hu'. fold (submitted_code form). rewrite Hcode, Hne. cbn [negb].
  rewrite Hotp'. cbn [o_used]. repeat split; reflexivity.
Qed.

(** The confirmed transfer of 30.00, submitted a second time. *)
Lemma consumed_code_cannot_be_replayed_witness :
  let r := confirmar_operacion (at_time (2 * one_minute) 0) POST (code_form "000123") replay_30 in
  fst r = flash_redirect OtpUsedOrMissing finance_gestion /\
  db (snd r) = db confirmed_30 /\ commits (snd r) = commits confirmed_30.
Proof.
  apply (consumed_code_cannot_be_replayed (at_time one_minute 0) (code_form "000123")
           staged_30 ana (pending_of staged_30) challenge_1 (at_time (2 * one_minute) 0)).
  repeat split; try (vm_compute; reflexivity). vm_compute. discriminate.
Defined.

(** X6. Cancelling, like logging out, forgets the pending operation
    without touching the database: the bound challenge stays unused, and
    a later confirmation, even with the right code, runs nothing. *)
Theorem cancelled_operation_cannot_be_confirmed e form w user op otp :
  bound_challenge w user op otp ->
  let c := cancelar_operacion w in
  let l := logout w in
  fst c = flash_redirect OperationCancelled finance_gestion /\
  db (snd c) = db w /\ commits (snd c) = commits w /\
  s_user_id (session (snd c)) = s_user_id (session w) /\
  confirmar_operacion e POST form (snd c) =
    (flash_redirect NoPendingOperation finance_gestion, snd c) /\
  db (snd l) = db w /\ session (snd l) = empty_session /\
  confirmar_operacion e POST form (snd l) =
    (flash_redirect LoginRequired auth_login, snd l) /\
  OtpCode_by_id_user (db (snd c)) (o_id otp) (u_id user) = Some otp /\
  o_used otp = false.
Proof.
  intros (Hlog & Hu & Hop & Hid & Hotp & Hused & Hne) c l. subst c l.
  unfold cancelar_operacion, logout, confirmar_operacion, login_required. cbn.
  destruct (truthy (s_user_id (session w))) eqn:Ht; [|contradiction]. cbn. rewrite ?Ht.
  repeat split; try reflexivity; assumption.
Qed.

(** Ana cancels, or logs out of, the staged transfer. *)
Lemma cancelled_operation_cannot_be_confirmed_witness :
  let e := at_time one_minute 0 in
  let form := code_form "000123" in
  let c := cancelar_operacion staged_30 in
  let l := logout staged_30 in
  fst c = flash_redirect OperationCancelled finance_gestion /\
  db (snd c) = db staged_30 /\ commits (snd c) = commits staged_30 /\
  s_user_id (session (snd c)) = s_user_id (session staged_30) /\
  confirmar_operacion e POST form (snd c) =
    (flash_redirect NoPendingOperation finance_gestion, snd c) /\
  db (snd l) = db staged_30 /\ session (snd l) = empty_session /\
  confirmar_operacion e POST form (snd l) =
    (flash_redirect LoginRequired auth_login, snd l) /\
  OtpCode_by_id_user (db (snd c)) (o_id challenge_1) (u_id ana) = Some challenge_1 /\
  o_used challenge_1 = false.
Proof.
  apply (cancelled_operation_cannot_be_confirmed (at_time one_minute 0) (code_form "000123")
           staged_30 ana (pending_of staged_30) challenge_1).
  repeat split; try (vm_compute; reflexivity). vm_compute. discriminate.
Defined.

(** ** Staging *)

(** X7. A staging request that is not accepted changes nothing: whatever
    the reason (not found user, bad bank type, empty alias, unreadable
    amount, same or missing accounts, insufficient funds, unknown
    recipient), no challenge is created, nothing is committed and the
    session keeps what it had. *)
Theorem rejected_staging_changes_nothing e form w :
  (fst (create_account e form w) <>
     flash_redirect OtpSentCreateAccount finance_confirmar_operacion ->
   snd (create_account e form w) = w) /\
  (fst (transfer_internal e form w) <>
     flash_redirect OtpSentTransferInternal finance_confirmar_operacion ->
   snd (transfer_internal e form w) = w) /\
  (fst (transfer_external e form w) <>
     flash_redirect OtpSentTransferExternal finance_confirmar_operacion ->
   snd (transfer_external e form w) = w).
Proof.
  unfold create_account, transfer_internal, transfer_external, login_required.
  split; [|split]; repeat case_match; cbn [fst snd]; intros Hrej;
    first [reflexivity | exfalso; apply Hrej; reflexivity].
Qed.

(** An open-account form whose bank type is unknown, a transfer of 60.00
    from the account that holds 50.00, a transfer to an unknown address. *)
Lemma rejected_staging_changes_nothing_witness :
  snd (create_account (at_time 0 1) (open_form "BANK" "Daily" "1") base) = base /\
  snd (transfer_internal (at_time 0 1) (transfer_form "1" "2" "60.00") base) = base /\
  snd (transfer_external (at_time 0 1)
         (<["recipient_email" := "nobody@x.com"]> (transfer_form "1" "" "5")) base) = base.
Proof.
  split; [|split].
  - apply (rejected_staging_changes_nothing (at_time 0 1) (open_form "BANK" "Daily" "1") base).
    vm_compute. discriminate.
  - apply (rejected_staging_changes_nothing (at_time 0 1) (transfer_form "1" "2" "60.00") base).
    vm_compute. discriminate.
  - apply (rejected_staging_changes_nothing (at_time 0 1)
             (<["recipient_email" := "nobody@x.com"]> (transfer_form "1" "" "5")) base).
    vm_compute. discriminate.
Defined.

(** X8. An accepted staging request, of any of the three kinds, issues
    exactly one new unused challenge for the session user, under a key no
    earlier challenge has, and commits it; the session then holds the
    operation bound to that key, in place of whatever operation it held
    before.  Accounts and transactions are not touched. *)
Theorem accepted_staging_issues_one_challenge e form w w' :
  (create_account e form w =
     (flash_redirect OtpSentCreateAccount finance_confirmar_operacion, w') ->
   staged_as e "create_account" w w') /\
  (transfer_internal e form w =
     (flash_redirect OtpSentTransferInternal finance_confirmar_operacion, w') ->
   staged_as e "transfer_internal" w w') /\
  (transfer_external e form w =
     (flash_redirect OtpSentTransferExternal finance_confirmar_operacion, w') ->
   staged_as e "transfer_external" w w').
Proof.
  unfold create_account, transfer_internal, transfer_external, login_required.
  split; [|split]; intros H; repeat case_match; try discriminate; injection H as <-;
    (eexists _, _; split; [eassumption|]; split; [reflexivity|]; split; [reflexivity|];
     split; [apply next_id_fresh|]; repeat (split; [reflexivity|]); reflexivity).
Qed.

(** Ana stages the transfer of 30.00 while another operation is pending. *)
Lemma accepted_staging_issues_one_challenge_witness :
  staged_as (at_time one_minute 7) "transfer_internal" staged_30
    (snd (transfer_internal (at_time one_minute 7) (transfer_form "1" "2" "30.00") staged_30)).
Proof.
  apply (accepted_staging_issues_one_challenge (at_time one_minute 7)
           (transfer_form "1" "2" "30.00") staged_30).
  vm_compute. reflexivity.
Defined.

Lemma positive_decimal_inv s q :
  positive_decimal s = Some q -> PyDecimal.Decimal s = Some q /\ (0 < q)%Q.
Proof.
  unfold positive_decimal. destruct (PyDecimal.Decimal s) as [a|]; [|discriminate].
  destruct (PyDecimal.leb a 0) eqn:E; [discriminate|]. intros H. injection H as <-.
  split; [reflexivity|].
  apply Qnot_le_lt. intros Hle. apply Qle_bool_iff in Hle.
  unfold PyDecimal.leb in E. congruence.
Qed.

Lemma ltb_false_le (a b : Q) : PyDecimal.ltb a b = false -> (b <= a)%Q.
Proof.
  unfold PyDecimal.ltb. intros H. apply negb_false_iff in H. apply Qle_bool_iff, H.
Qed.

Lemma Account_by_id_user_owner d i uid a :
  Account_by_id_user d i uid = Some a -> a_user_id a = uid.
Proof.
  unfold Account_by_id_user. destruct (sql_int i); [|discriminate].
  intros H. apply find_some in H as [_ H]. apply andb_true_iff in H as [_ H]. lia.
Qed.

(** X9. Staging accepts a transfer only when it is feasible at that
    moment: the amount reads as a decimal greater than zero, the source
    account belongs to the session user and holds at least the amount;
    for an internal transfer the two account fields differ and the
    destination belongs to the same user, for an external one the
    normalised recipient address names a registered user who has an
    account. *)
Theorem staged_transfer_was_feasible e form w w' :
  (transfer_internal e form w =
     (flash_redirect OtpSentTransferInternal finance_confirmar_operacion, w') ->
   exists user amount from_acc to_acc,
     User_get (db w) (s_user_id (session w)) = Some user /\
     form_get form "from_account_id" <> form_get form "to_account_id" /\
     PyDecimal.Decimal (PyStr.strip (form_get_or form "amount" "")) = Some amount /\
     (0 < amount)%Q /\
     Account_by_id_user (db w) (form_get form "from_account_id") (u_id user) = Some from_acc /\
     Account_by_id_user (db w) (form_get form "to_account_id") (u_id user) = Some to_acc /\
     a_user_id from_acc = u_id user /\ a_user_id to_acc = u_id user /\
     (amount <= a_balance from_acc)%Q) /\
  (transfer_external e form w =
     (flash_redirect OtpSentTransferExternal finance_confirmar_operacion, w') ->
   exists user amount from_acc recipient to_acc,
     User_get (db w) (s_user_id (session w)) = Some user /\
     PyDecimal.Decimal (PyStr.strip (form_get_or form "amount" "")) = Some amount /\
     (0 < amount)%Q /\
     Account_by_id_user (db w) (form_get form "from_account_id") (u_id user) = Some from_acc /\
     a_user_id from_acc = u_id user /\
     (amount <= a_balance from_acc)%Q /\
     User_by_email (db w)
       (PyStr.strip (PyStr.lower (form_get_or form "recipient_email" ""))) = Some recipient /\
     Account_first_of_user (db w) (u_id recipient) = Some to_acc).
Proof.
  split; intros H.
  - unfold transfer_internal, login_required in H.
    repeat case_match; try discriminate.
    match goal with
    | Hf : Account_by_id_user _ (form_get form "from_account_id") _ = Some ?f,
      Ht : Account_by_id_user _ (form_get form "to_account_id") _ = Some ?t,
      Hd : positive_decimal _ = Some ?q,
      Hb : PyDecimal.ltb _ _ = false, Hn : bool_decide _ = false |- _ =>
        destruct (positive_decimal_inv _ _ Hd) as [Hdec Hpos];
        eexists _, q, f, t; split; [reflexivity|];
        split; [eapply bool_decide_eq_false; exact Hn|]; split; [exact Hdec|];
        split; [exact Hpos|]; split; [exact Hf|]; split; [exact Ht|];
        split; [exact (Account_by_id_user_owner _ _ _ _ Hf)|];
        split; [exact (Account_by_id_user_owner _ _ _ _ Ht)|];
        apply ltb_false_le, Hb
    end.
  - unfold transfer_external, login_required in H.
    repeat case_match; try discriminate.
    match goal with
    | Hf : Account_by_id_user _ (form_get form "from_account_id") _ = Some ?f,
      Ht : Account_first_of_user _ _ = Some ?t, Hr : User_by_email _ _ = Some ?r,
      Hd : positive_decimal _ = Some ?q,
      Hb : PyDecimal.ltb _ _ = false |- _ =>
        destruct (positive_decimal_inv _ _ Hd) as [Hdec Hpos];
        eexists _, q, f, r, t; split; [reflexivity|]; split; [exact Hdec|];
        split; [exact Hpos|]; split; [exact Hf|];
        split; [exact (Account_by_id_user_owner _ _ _ _ Hf)|];
        split; [apply ltb_false_le, Hb|];
        split; [reflexivity|exact Ht]
    end.
Qed.

(** The staged transfer of 30.00 between Ana's accounts, and a staged
    transfer of 5.00 to Bob. *)
Lemma staged_transfer_was_feasible_witness :
  (exists user amount from_acc to_acc,
     User_get (db base) (s_user_id (session base)) = Some user /\
     form_get (transfer_form "1" "2" "30.00") "from_account_id" <>
       form_get (transfer_form "1" "2" "30.00") "to_account_id" /\
     PyDecimal.Decimal (PyStr.strip (form_get_or (transfer_form "1" "2" "30.00") "amount" ""))
       = Some amount /\
     (0 < amount)%Q /\
     Account_by_id_user (db base) (form_get (transfer_form "1" "2" "30.00") "from_account_id")
       (u_id user) = Some from_acc /\
     Account_by_id_user (db base) (form_get (transfer_form "1" "2" "30.00") "to_account_id")
       (u_id user) = Some to_acc /\
     a_user_id from_acc = u_id user /\ a_user_id to_acc = u_id user /\
     (amount <= a_balance from_acc)%Q).
Proof.
  apply (staged_transfer_was_feasible (at_time 0 123) (transfer_form "1" "2" "30.00") base
           staged_30).
  vm_compute. reflexivity.
Defined.

(** ** The executors *)










(** X14. A missing, empty or blank initial balance counts as zero: with a
    valid bank type and alias the account is opened with balance zero and
    no transaction row. *)
Theorem blank_initial_balance_opens_empty_account e user bt name raw w :
  In bt BANK_TYPES ->
  PyStr.nonempty name = true ->
  PyStr.strip (PyStr.or_else raw "") = "" ->
  let r := _execute_create_account e user (Some bt) name raw w in
  fst r = flash_redirect AccountCreated finance_dashboard /\
  (exists acc, accounts (db (snd r)) = (accounts (db w) ++ [acc])%list /\
               a_user_id acc = u_id user /\ a_bank_type acc = bt /\ a_name acc = name /\
               (a_balance acc == 0)%Q) /\
  transactions (db (snd r)) = transactions (db w).
Proof.
  intros Hbt Hname Hblank r. subst r. unfold _execute_create_account.
  assert (Hin : in_BANK_TYPES (Some bt) = true).
  { unfold in_BANK_TYPES. apply existsb_exists. exists bt.
    split; [exact Hbt|apply String.eqb_refl]. }
  rewrite Hin, Hname. cbn [negb].
  assert (Hraw : PyStr.str_or (PyStr.strip (PyStr.or_else raw "0")) "0" = "0").
  { destruct raw as [s|]; [|reflexivity]. destruct s as [|c s]; [reflexivity|].
    cbn [PyStr.or_else PyStr.nonempty] in *. rewrite Hblank. reflexivity. }
  rewrite Hraw.
  change (PyDecimal.Decimal "0") with (Some (inject_Z 0 * PyDecimal.pow10 0)%Q).
  cbn [PyDecimal.eqb]. replace (Qeq_bool (inject_Z 0 * PyDecimal.pow10 0) 0) with true
    by reflexivity.
  cbn [negb fst snd]. split; [reflexivity|]. split; [|reflexivity].
  eexists. split; [reflexivity|]. repeat split; reflexivity.
Qed.

(** Ana opens an account and leaves the initial balance blank. *)
Lemma blank_initial_balance_opens_empty_account_witness :
  let r := _execute_create_account (at_time 0 0) ana (Some "NU") "Ahorro" (Some "  ") base in
  fst r = flash_redirect AccountCreated finance_dashboard /\
  (exists acc, accounts (db (snd r)) = (accounts (db base) ++ [acc])%list /\
               a_user_id acc = u_id ana /\ a_bank_type acc = "NU" /\ a_name acc = "Ahorro" /\
               (a_balance acc == 0)%Q) /\
  transactions (db (snd r)) = transactions (db base).
Proof.
  apply (blank_initial_balance_opens_empty_account (at_time 0 0) ana "NU" "Ahorro"
           (Some "  ") base).
  - vm_compute. auto.
  - reflexivity.
  - reflexivity.
Defined.

(** ** Registration, login and the login code *)

Section AuthSteps.
Variable hash_password : string -> string.
Variable check_password : string -> string -> bool.
Variable confirm_email_token : datetime -> string -> option string.

(** X15. A registration that is not completed changes nothing, and an
    address is taken whatever its letter case or surrounding blanks: the
    form's address is lower-cased and stripped before it is compared with
    the registered ones. *)
Theorem rejected_registration_changes_nothing e m form w :
  let r := register hash_password e m form w in
  (fst r <> (None, Render tpl_email_verification_sent) -> snd r = w) /\
  (truthy (s_user_id (session w)) = None ->
   PyStr.nonempty (normalised_email form) = true ->
   PyStr.nonempty (form_get_or form "password" "") = true ->
   User_by_email (db w) (normalised_email form) <> None ->
   register hash_password e POST form w = (flash_redirect EmailTaken auth_register, w)).
Proof.
  unfold register. fold (normalised_email form). split.
  - repeat case_match; cbn [fst snd]; intros Hrej;
      first [reflexivity | exfalso; apply Hrej; reflexivity].
  - intros -> -> -> Hu. cbn [negb orb].
    destruct (User_by_email (db w) (normalised_email form)); [reflexivity|contradiction].
Qed.

(** X16. A login request that does not pass -- unknown address, wrong
    password, address not verified -- issues no code and changes nothing.
    One that passes issues one unused code for that user and records the
    user as pending the second factor, but does not log the session in:
    the password alone never authenticates. *)
Theorem password_alone_does_not_log_in e m form w :
  let r := login check_password e m form w in
  (fst r <> flash_redirect OtpSentLogin mfa_verify_otp -> snd r = w) /\
  (fst r = flash_redirect OtpSentLogin mfa_verify_otp ->
   exists user,
     User_by_email (db w) (normalised_email form) = Some user /\
     check_password (form_get_or form "password" "") (u_password_hash user) = true /\
     u_email_verified user = true /\
     db (snd r) = add_otp (new_otp e (db w) (u_id user) (_generate_otp_code e)) (db w) /\
     s_pending_otp_user_id (session (snd r)) = Some (u_id user) /\
     truthy (s_user_id (session (snd r))) = None /\
     forall e' form' account_id,
       fst (create_account e' form' (snd r)) = flash_redirect LoginRequired auth_login /\
       fst (transfer_internal e' form' (snd r)) = flash_redirect LoginRequired auth_login /\
       fst (transfer_external e' form' (snd r)) = flash_redirect LoginRequired auth_login /\
       fst (confirmar_operacion e' POST form' (snd r)) = flash_redirect LoginRequired auth_login /\
       movimientos account_id (snd r) = Answered (flash_redirect LoginRequired auth_login)).
Proof.
  unfold login. fold (normalised_email form). split.
  - repeat case_match; cbn [fst snd]; intros Hrej;
      first [reflexivity | exfalso; apply Hrej; reflexivity].
  - destruct (truthy (s_user_id (session w))) eqn:Hlog; [discriminate|].
    destruct m; [discriminate|].
    destruct (User_by_email (db w) (normalised_email form)) as [user|]; [|discriminate].
    destruct (check_password _ _) eqn:Hpw; [|discriminate].
    destruct (u_email_verified user) eqn:Hver; [|discriminate].
    cbn [negb fst snd]. intros _. exists user.
    split; [reflexivity|]. split; [exact Hpw|]. split; [exact Hver|].
    split; [reflexivity|]. split; [reflexivity|]. split; [exact Hlog|].
    intros e' form' account_id.
    unfold create_account, transfer_internal, transfer_external, confirmar_operacion,
      movimientos, login_required, login_required_view.
    cbn [session set_session commit set_db s_user_id]. rewrite Hlog.
    repeat split; reflexivity.
Qed.


End AuthSteps.

(** Registering "Ana@X.com " when "ana@x.com" is registered. *)
Lemma rejected_registration_changes_nothing_witness :
  let w := mkWorld base_db [] empty_session in
  register identity_hash (at_time 0 0) POST (credentials " Ana@X.com " "pw") w =
    (flash_redirect EmailTaken auth_register, w).
Proof.
  intros w.
  apply (rejected_registration_changes_nothing identity_hash (at_time 0 0) POST
           (credentials " Ana@X.com " "pw") w).
  - reflexivity.
  - reflexivity.
  - reflexivity.
  - vm_compute. discriminate.
Defined.

(** Ana's login with the right password after verifying her address. *)
Lemma password_alone_does_not_log_in_witness :
  let w := snd (verify_email token_is_email (at_time 1 0) "ana@x.com" fresh_ana) in
  let form := credentials "ana@x.com" "pw" in
  let r := login check_equal (at_time 2 42) POST form w in
  exists user,
    User_by_email (db w) (normalised_email form) = Some user /\
    check_equal (form_get_or form "password" "") (u_password_hash user) = true /\
    u_email_verified user = true /\
    db (snd r) = add_otp (new_otp (at_time 2 42) (db w) (u_id user)
                            (_generate_otp_code (at_time 2 42))) (db w) /\
    s_pending_otp_user_id (session (snd r)) = Some (u_id user) /\
    truthy (s_user_id (session (snd r))) = None /\
    forall e' form' account_id,
      fst (create_account e' form' (snd r)) = flash_redirect LoginRequired auth_login /\
      fst (transfer_internal e' form' (snd r)) = flash_redirect LoginRequired auth_login /\
      fst (transfer_external e' form' (snd r)) = flash_redirect LoginRequired auth_login /\
      fst (confirmar_operacion e' POST form' (snd r)) = flash_redirect LoginRequired auth_login /\
      movimientos account_id (snd r) = Answered (flash_redirect LoginRequired auth_login).
Proof.
  intros w form r.
  apply (password_alone_does_not_log_in check_equal (at_time 2 42) POST form w).
  vm_compute. reflexivity.
Defined.


(** X18. A login code that is not accepted -- blank, matching no unused
    challenge of the user, or matching one that is older than [max_age]
    -- changes nothing: the challenge stays unused and the session is not
    logged in. *)
Theorem rejected_login_code_changes_nothing e m form w :
  fst (verify_otp e m form w) <> flash_redirect MfaDone finance_dashboard ->
  snd (verify_otp e m form w) = w.
Proof.
  unfold verify_otp. repeat case_match; cbn [fst snd]; intros Hrej;
    first [reflexivity | exfalso; apply Hrej; reflexivity].
Qed.

(** Ana submits her login code six minutes late. *)
Lemma rejected_login_code_changes_nothing_witness :
  snd (verify_otp (at_time (6 * one_minute) 0) POST (code_form "000042") ana_at_mfa)
  = ana_at_mfa.
Proof.
  apply (rejected_login_code_changes_nothing (at_time (6 * one_minute) 0) POST
           (code_form "000042") ana_at_mfa).
  vm_compute. discriminate.
Defined.

Lemma filter_map_none {A} (p : A -> bool) (g : A -> A) (l : list A) :
  (forall x, In x l -> p (g x) = false) -> List.filter p (map g l) = [].
Proof.
  intros H. apply filter_none. intros y Hy. apply in_map_iff in Hy as (x & <- & Hx).
  apply H, Hx.
Qed.

(** X19. A login code works once.  When the accepted code was carried by
    a single unused challenge of the user, submitting it again for the
    same user, from this or from any other session waiting for the second
    factor, is answered with an invalid-code failure. *)
Theorem login_code_is_single_use e form w w' e' s' :
  verify_otp e POST form w = (flash_redirect MfaDone finance_dashboard, w') ->
  (forall o1 o2, In o1 (otp_codes (db w)) -> In o2 (otp_codes (db w)) ->
     Some (o_user_id o1) = truthy (s_pending_otp_user_id (session w)) ->
     Some (o_user_id o2) = truthy (s_pending_otp_user_id (session w)) ->
     o_used o1 = false -> o_used o2 = false ->
     o_code o1 = submitted_code form -> o_code o2 = submitted_code form ->
     o_id o1 = o_id o2) ->
  truthy (s_pending_otp_user_id s') = truthy (s_pending_otp_user_id (session w)) ->
  verify_otp e' POST form (set_session s' w') =
    (flash_redirect MfaOtpInvalid mfa_verify_otp, set_session s' w').
Proof.
  unfold verify_otp. fold (submitted_code form). intros H Huniq Hs'.
  cbn [session set_session]. rewrite Hs'.
  destruct (truthy (s_pending_otp_user_id (session w))) as [uid|] eqn:Huid; [|discriminate].
  destruct (User_get (db w) (Some uid)) as [user|] eqn:Hu; [|discriminate].
  destruct (negb (PyStr.nonempty (submitted_code form))) eqn:Hne; [discriminate|].
  destruct (OtpCode_latest_unused (db w) (u_id user) (submitted_code form)) as [otp|] eqn:Ho;
    [|discriminate].
  destruct (expired e otp) eqn:Hexp; [discriminate|].
  injection H as <-. cbn [db commit set_db set_session session].
  change (User_get (mark_used (o_id otp) (db w)) (Some uid)) with (User_get (db w) (Some uid)).
  rewrite Hu.
  assert (Hid : u_id user = uid) by (apply find_some in Hu as [_ Hu]; lia).
  apply order_by_created_at_desc_head in Ho as [Hin _].
  apply filter_In in Hin as [Hin Hp].
  apply andb_true_iff in Hp as [Hp Hunused]. apply andb_true_iff in Hp as [Huser Hcode].
  apply negb_true_iff in Hunused. apply String.eqb_eq in Hcode. apply Z.eqb_eq in Huser.
  unfold OtpCode_latest_unused. cbn [otp_codes mark_used].
  rewrite filter_map_none; [reflexivity|].
  intros x Hx. destruct (o_id x =? o_id otp) eqn:E; cbn [o_user_id o_code o_used].
  - rewrite andb_false_r. reflexivity.
  - destruct ((o_user_id x =? u_id user) && String.eqb (o_code x) (submitted_code form)
              && negb (o_used x)) eqn:P; [|reflexivity].
    apply andb_true_iff in P as [P Pu]. apply andb_true_iff in P as [Pi Pc].
    apply negb_true_iff in Pu. apply String.eqb_eq in Pc. apply Z.eqb_eq in Pi.
    apply Z.eqb_neq in E. exfalso. apply E.
    apply (Huniq x otp Hx Hin); congruence.
Qed.

(** Ana logs in with her code; the same code is then submitted again. *)
Lemma login_code_is_single_use_witness :
  let e := at_time one_minute 0 in
  let w' := snd (verify_otp e POST (code_form "000042") ana_at_mfa) in
  verify_otp (at_time (2 * one_minute) 0) POST (code_form "000042")
    (set_session (session ana_at_mfa) w') =
  (flash_redirect MfaOtpInvalid mfa_verify_otp, set_session (session ana_at_mfa) w').
Proof.
  intros e w'.
  apply (login_code_is_single_use e (code_form "000042") ana_at_mfa w').
  - vm_compute. reflexivity.
  - intros o1 o2 [<-|[]] [<-|[]] _ _ _ _ _ _. reflexivity.
  - reflexivity.
Defined.

(** * Properties of every sequence of requests *)

(** ** The writes of the handlers *)

Lemma User_get_In d i u : User_get d i = Some u -> In (u_id u) (map u_id (users d)).
Proof.
  unfold User_get. destruct i; [|discriminate]. intros H.
  apply find_some in H as [H _]. apply in_map, H.
Qed.

Lemma User_by_email_none d s : User_by_email d s = None -> ~ In s (map u_email (users d)).
Proof.
  intros H Hin. apply in_map_iff in Hin as (u & <- & Hu).
  pose proof (find_none _ _ H u Hu) as E. cbn in E. rewrite String.eqb_refl in E. discriminate.
Qed.

Lemma next_id_snoc ids : next_id (ids ++ [next_id ids]) = next_id ids + 1.
Proof.
  assert (H : forall l m, fold_right Z.max 0 (l ++ [m]) = Z.max (fold_right Z.max 0 l) m
                          \/ (m < 0 /\ fold_right Z.max 0 (l ++ [m]) = fold_right Z.max 0 l)).
  { induction l as [|x l IH]; intros m; simpl.
    - destruct (Z.max_spec m 0) as [[? ->]|[? ->]]; lia.
    - destruct (IH m) as [->|[? ->]]; [left|right]; lia. }
  unfold next_id. pose proof (next_id_pos ids) as Hpos. unfold next_id in Hpos.
  destruct (H ids (1 + fold_right Z.max 0 ids)) as [->|[? _]]; lia.
Qed.

(** Peels the last write off the database on the right. *)
Ltac last_write lem := eapply rtc_r; [|apply lem].

Lemma apply_transfer_writes e f t amount description oe ie w :
  In f (accounts (db w)) -> In t (accounts (db w)) ->
  rtc db_write (db w) (db (apply_transfer e f t amount description oe ie w)).
Proof.
  intros Hf Ht. unfold apply_transfer. cbn [db commit set_db].
  last_write write_transactions.
  - last_write write_balance. last_write write_balance. apply rtc_refl.
  - cbn. repeat constructor; cbn; intuition lia.
  - intros x Hx. rewrite !update_balance_ids.
    destruct Hx as [<-|[<-|[]]]; cbn; split; try lia; apply in_map; assumption.
Qed.

Lemma deposit_writes d acc tx :
  a_id acc = next_id (map a_id (accounts d)) ->
  In (a_user_id acc) (map u_id (users d)) ->
  t_id tx = next_id (map t_id (transactions d)) ->
  t_account_id tx = a_id acc ->
  rtc db_write d (add_all_transactions [tx] (add_account acc d)).
Proof.
  intros Hid Hu Htid Hacc. last_write write_transactions.
  - last_write write_account; [apply rtc_refl|exact Hid|exact Hu].
  - repeat constructor. intros [].
  - intros x [<-|[]]. cbn. split; [lia|]. rewrite Hacc, map_app, in_app_iff.
    right. left. reflexivity.
Qed.

Lemma execute_pending_writes e user op_name payload w :
  In (u_id user) (map u_id (users (db w))) ->
  rtc db_write (db w) (db (snd (execute_pending e user op_name payload w))).
Proof.
  intros Hu.
  unfold execute_pending, _execute_create_account, _execute_transfer_internal,
    _execute_transfer_external.
  repeat case_match; cbn [snd]; try apply rtc_refl;
    try (apply apply_transfer_writes;
         eauto using Account_by_id_user_In, Account_first_of_user_In).
  - cbn [db commit set_db]. apply deposit_writes; try reflexivity. exact Hu.
  - cbn [db commit set_db]. last_write write_account; [apply rtc_refl|reflexivity|exact Hu].
Qed.

Lemma _start_operation_otp_writes e user name payload title w :
  In (u_id user) (map u_id (users (db w))) ->
  rtc db_write (db w) (db (_start_operation_otp e user name payload title w)).
Proof.
  intros Hu. cbn [_start_operation_otp db commit set_db set_session].
  last_write write_otp; [apply rtc_refl|reflexivity|exact Hu].
Qed.

Section Writes.
Variable hash_password : string -> string.
Variable check_password : string -> string -> bool.
Variable confirm_email_token : datetime -> string -> option string.

(** Every handler changes the database through these writes only. *)
Lemma handle_writes e r w :
  rtc db_write (db w)
    (db (snd (handle hash_password check_password confirm_email_token e r w))).
Proof.
  destruct r; cbn [handle].
  - unfold register. repeat case_match; cbn [snd]; try apply rtc_refl.
    cbn [db commit set_db].
    eapply rtc_trans; [|apply deposit_writes; try reflexivity].
    + last_write write_user; [apply rtc_refl|reflexivity|].
      apply User_by_email_none. assumption.
    + cbn. rewrite map_app, in_app_iff. right. left. reflexivity.
  - unfold verify_email. repeat case_match; cbn [snd]; try apply rtc_refl.
    cbn [db commit set_db]. last_write write_verified. apply rtc_refl.
  - unfold login. repeat case_match; cbn [snd]; try apply rtc_refl.
    cbn [db commit set_db set_session].
    last_write write_otp; [apply rtc_refl|reflexivity|].
    cbn [new_otp o_user_id].
    match goal with H : User_by_email _ _ = Some _ |- _ =>
      apply find_some in H as [H _]; apply in_map, H end.
  - apply rtc_refl.
  - unfold verify_otp. repeat case_match; cbn [snd]; try apply rtc_refl.
    cbn [db commit set_db set_session]. last_write write_used. apply rtc_refl.
  - unfold create_account, login_required. repeat case_match; cbn [snd]; try apply rtc_refl.
    apply _start_operation_otp_writes.
    match goal with Hu : User_get (db w) _ = Some _ |- _ => exact (User_get_In _ _ _ Hu) end.
  - unfold transfer_internal, login_required. repeat case_match; cbn [snd]; try apply rtc_refl.
    apply _start_operation_otp_writes.
    match goal with Hu : User_get (db w) _ = Some _ |- _ => exact (User_get_In _ _ _ Hu) end.
  - unfold transfer_external, login_required. repeat case_match; cbn [snd]; try apply rtc_refl.
    apply _start_operation_otp_writes.
    match goal with Hu : User_get (db w) _ = Some _ |- _ => exact (User_get_In _ _ _ Hu) end.
  - unfold confirmar_operacion, login_required.
    repeat case_match; cbn [snd]; try apply rtc_refl.
    match goal with
    | Hu : User_get (db w) _ = Some ?u, Ho : OtpCode_by_id_user _ _ _ = Some ?o |- _ =>
        eapply rtc_l; [apply (write_used _ (o_id o))|];
        apply (execute_pending_writes e u _ _
                 (_clear_pending_operation (commit (set_db (mark_used (o_id o) (db w)) w))));
        exact (User_get_In _ _ _ Hu)
    end.
  - unfold cancelar_operacion, login_required. repeat case_match; apply rtc_refl.
  - unfold reenviar_otp_operacion, login_required.
    repeat case_match; cbn [snd]; try apply rtc_refl.
    cbn [db commit set_db set_session].
    last_write write_otp; [apply rtc_refl|reflexivity|].
    match goal with Hu : User_get (db w) _ = Some _ |- _ => exact (User_get_In _ _ _ Hu) end.
Qed.

Lemma run_writes reqs sv :
  rtc db_write (sv_db sv)
    (sv_db (run hash_password check_password confirm_email_token reqs sv)).
Proof.
  revert sv. induction reqs as [|[[e client] r] reqs IH]; intros sv; [apply rtc_refl|].
  cbn [run]. eapply rtc_trans; [|apply IH]. unfold serve.
  pose proof (handle_writes e r
    (mkWorld (sv_db sv) (sv_commits sv) (default empty_session (sv_sessions sv !! client)))) as H.
  destruct (handle _ _ _ e r _) as [resp w']. exact H.
Qed.

End Writes.

(** ** What the writes keep *)

Lemma NoDup_snoc {A} (l : list A) (x : A) :
  List.NoDup l -> ~ In x l -> List.NoDup (l ++ [x]).
Proof.
  intros Hl Hx. apply List.NoDup_app; [exact Hl|repeat constructor; intros []|].
  intros a Ha [<-|[]]. contradiction.
Qed.

Lemma map_map_key {A B} (key : A -> B) (g : A -> A) (l : list A) :
  (forall x, key (g x) = key x) -> map key (map g l) = map key l.
Proof. intros H. rewrite map_map. apply map_ext, H. Qed.

Lemma db_write_keys d d' : db_write d d' -> keys_ok d -> keys_ok d'.
Proof.
  intros Hw (Hu & He & Ho & Ha & Ht). destruct Hw; unfold keys_ok; cbn.
  - rewrite !map_app. cbn. repeat split; try assumption.
    + apply NoDup_snoc; [exact Hu|]. rewrite H. apply next_id_fresh.
    + apply NoDup_snoc; assumption.
  - rewrite map_app. cbn. repeat split; try assumption.
    apply NoDup_snoc; [exact Ho|]. rewrite H. apply next_id_fresh.
  - rewrite map_app. cbn. repeat split; try assumption.
    apply NoDup_snoc; [exact Ha|]. rewrite H. apply next_id_fresh.
  - rewrite map_app. repeat split; try assumption.
    apply List.NoDup_app; [exact Ht|assumption|].
    intros i Hi Hi'. apply in_map_iff in Hi' as (t & <- & Hin).
    apply next_id_above in Hi. destruct (H0 t Hin) as [Hge _]. lia.
  - rewrite (map_map_key a_id); [repeat split; assumption|].
    intros x. destruct (a_id x =? i); reflexivity.
  - rewrite (map_map_key o_id); [repeat split; assumption|].
    intros x. destruct (o_id x =? i); reflexivity.
  - rewrite (map_map_key u_id), (map_map_key u_email); [repeat split; assumption| |];
      intros x; destruct (u_id x =? i); reflexivity.
Qed.

Lemma db_write_refs d d' : db_write d d' -> refs_ok d -> refs_ok d'.
Proof.
  intros Hw (Ho & Ha & Ht). destruct Hw; unfold refs_ok; cbn.
  - rewrite map_app. repeat split; intros x Hx; try (apply in_app_iff; left); auto.
  - repeat split; auto. intros x Hx. apply in_app_iff in Hx as [Hx|[<-|[]]]; auto.
  - rewrite map_app. repeat split; auto.
    + intros x Hx. apply in_app_iff in Hx as [Hx|[<-|[]]]; auto.
    + intros x Hx. apply in_app_iff. left. auto.
  - repeat split; auto. intros x Hx. apply in_app_iff in Hx as [Hx|Hx]; auto.
    apply H0, Hx.
  - rewrite (map_map_key a_id) by (intros x; destruct (a_id x =? i); reflexivity).
    repeat split; auto. intros x Hx. apply in_map_iff in Hx as (y & <- & Hy).
    destruct (a_id y =? i); cbn; auto.
  - repeat split; auto. intros x Hx. apply in_map_iff in Hx as (y & <- & Hy).
    destruct (o_id y =? i); cbn; auto.
  - rewrite (map_map_key u_id) by (intros x; destruct (u_id x =? i); reflexivity).
    repeat split; auto.
Qed.

Lemma db_write_kept d d' :
  db_write d d' ->
  users_kept d d' /\ challenges_kept d d' /\ accounts_kept d d' /\ ledger_extended d d'.
Proof.
  assert (Hsame_u : forall d d', users d' = users d -> users_kept d d')
    by (intros ? ? E u Hu; exists u; rewrite E; auto 10).
  assert (Hsame_o : forall d d', otp_codes d' = otp_codes d -> challenges_kept d d')
    by (intros ? ? E o Ho; exists o; rewrite E; auto 10).
  assert (Hsame_a : forall d d', accounts d' = accounts d -> accounts_kept d d')
    by (intros ? ? E a Ha; exists a; rewrite E; auto 10).
  assert (Hsame_t : forall d d', transactions d' = transactions d -> ledger_extended d d')
    by (intros ? ? E; exists []; rewrite E, app_nil_r; reflexivity).
  intros Hw. destruct Hw.
  - repeat split; auto. intros x Hx. exists x. split; [apply in_app_iff; left; exact Hx|auto 10].
  - repeat split; auto. intros x Hx. exists x. split; [apply in_app_iff; left; exact Hx|auto 10].
  - repeat split; auto. intros x Hx. exists x. split; [apply in_app_iff; left; exact Hx|auto 10].
  - repeat split; auto. exists ts. reflexivity.
  - repeat split; auto. intros x Hx. eexists. split; [apply in_map, Hx|].
    destruct (a_id x =? i); repeat split; reflexivity.
  - repeat split; auto. intros x Hx. eexists. split; [apply in_map, Hx|].
    destruct (o_id x =? i); repeat split; auto.
  - repeat split; auto. intros x Hx. eexists. split; [apply in_map, Hx|].
    destruct (u_id x =? i); repeat split; auto.
Qed.

Lemma db_writes_kept d d' :
  rtc db_write d d' ->
  users_kept d d' /\ challenges_kept d d' /\ accounts_kept d d' /\ ledger_extended d d'.
Proof.
  induction 1 as [d|d1 d2 d3 Hw _ (Hu & Ho & Ha & Ht)].
  - repeat split.
    + intros u Hu. exists u. auto 10.
    + intros o Ho. exists o. auto 10.
    + intros a Ha. exists a. auto 10.
    + exists []. rewrite app_nil_r. reflexivity.
  - destruct (db_write_kept _ _ Hw) as (Hu1 & Ho1 & Ha1 & Ht1). repeat split.
    + intros u Hin. destruct (Hu1 u Hin) as (u1 & Hin1 & E1 & E2 & E3 & E4 & E5).
      destruct (Hu u1 Hin1) as (u2 & Hin2 & F1 & F2 & F3 & F4 & F5).
      exists u2. repeat split; try congruence. auto.
    + intros o Hin. destruct (Ho1 o Hin) as (o1 & Hin1 & E1 & E2 & E3 & E4 & E5).
      destruct (Ho o1 Hin1) as (o2 & Hin2 & F1 & F2 & F3 & F4 & F5).
      exists o2. repeat split; try congruence. auto.
    + intros a Hin. destruct (Ha1 a Hin) as (a1 & Hin1 & E1 & E2 & E3 & E4).
      destruct (Ha a1 Hin1) as (a2 & Hin2 & F1 & F2 & F3 & F4).
      exists a2. repeat split; congruence.
    + destruct Ht1 as [n1 E1], Ht as [n2 E2]. exists (n1 ++ n2)%list.
      rewrite E2, E1, app_assoc. reflexivity.
Qed.

Lemma db_writes_keys d d' : rtc db_write d d' -> keys_ok d -> keys_ok d'.
Proof. induction 1; eauto using db_write_keys. Qed.

Lemma db_writes_refs d d' : rtc db_write d d' -> refs_ok d -> refs_ok d'.
Proof. induction 1; eauto using db_write_refs. Qed.

Section Reachable.
Variable hash_password : string -> string.
Variable check_password : string -> string -> bool.
Variable confirm_email_token : datetime -> string -> option string.

(** X20. In every database the application reaches from the empty one,
    primary keys are unique in each of the four tables and no two users
    share an e-mail address. *)
Theorem keys_and_addresses_stay_unique reqs :
  keys_ok (sv_db (run hash_password check_password confirm_email_token reqs empty_server)).
Proof.
  apply (db_writes_keys empty_db); [apply (run_writes _ _ _ reqs empty_server)|].
  repeat split; constructor.
Qed.

(** X21. In every database the application reaches from the empty one,
    every challenge and every account belongs to a registered user and
    every transaction row to an existing account. *)
Theorem references_stay_valid reqs :
  refs_ok (sv_db (run hash_password check_password confirm_email_token reqs empty_server)).
Proof.
  apply (db_writes_refs empty_db); [apply (run_writes _ _ _ reqs empty_server)|].
  repeat split; intros x [].
Qed.

(** X22. The ledger is append-only: whatever requests are served, from
    whatever state, the transaction table afterwards is the table from
    before followed by the new rows; no row is ever changed or removed. *)
Theorem ledger_is_append_only reqs sv :
  ledger_extended (sv_db sv)
    (sv_db (run hash_password check_password confirm_email_token reqs sv)).
Proof. apply db_writes_kept, run_writes. Qed.

(** X23. A challenge is never deleted and never rewritten: whatever
    requests are served, each challenge is still there with its id, user,
    code and creation time, and a challenge that was used is still used. *)
Theorem used_challenge_stays_used reqs sv :
  challenges_kept (sv_db sv)
    (sv_db (run hash_password check_password confirm_email_token reqs sv)).
Proof. apply db_writes_kept, run_writes. Qed.

(** X24. Users and accounts are never deleted: whatever requests are
    served, each user keeps id, address, password hash and creation time,
    and a verified address stays verified; each account keeps id, owner,
    bank type and alias, only its balance moves. *)
Theorem users_and_accounts_are_kept reqs sv :
  let d' := sv_db (run hash_password check_password confirm_email_token reqs sv) in
  users_kept (sv_db sv) d' /\ accounts_kept (sv_db sv) d'.
Proof.
  intros d'. destruct (db_writes_kept (sv_db sv) d' (run_writes _ _ _ reqs sv))
    as (Hu & _ & Ha & _). split; assumption.
Qed.

End Reachable.

(** ** Money is conserved *)






Section Conservation.
Variable hash_password : string -> string.
Variable check_password : string -> string -> bool.
Variable confirm_email_token : datetime -> string -> option string.


End Conservation.

(** ** What the views show *)

Lemma py_sum_from (xs : list Q) (a : Q) :
  (fold_left Qplus xs a == a + sum_over (fun x => x) xs)%Q.
Proof.
  unfold sum_over. revert a. induction xs as [|x xs IH]; intros a; cbn [fold_left fold_right].
  - ring.
  - rewrite IH. ring.
Qed.

Lemma total_balance_sum (l : list Account) : (total_balance l == sum_over a_balance l)%Q.
Proof.
  destruct l as [|a l]; [reflexivity|]. unfold total_balance, py_sum.
  rewrite py_sum_from. generalize (a :: l). intros l'.
  unfold sum_over. induction l' as [|x l' IH]; cbn [map fold_right]; [ring|].
  rewrite <- IH. ring.
Qed.










Lemma insert_by_date_perm t l : Permutation (insert_by_date t l) (t :: l).
Proof.
  induction l as [|p r IH]; cbn [insert_by_date]; [reflexivity|].
  destruct (t_date p <=? t_date t); [reflexivity|].
  rewrite IH. apply perm_swap.
Qed.

Lemma order_by_date_desc_perm l : Permutation (order_by_date_desc l) l.
Proof.
  induction l as [|t l IH]; cbn [order_by_date_desc fold_right]; [reflexivity|].
  rewrite insert_by_date_perm. constructor. exact IH.
Qed.

Lemma insert_by_date_sorted t l :
  StronglySorted by_date_desc l -> StronglySorted by_date_desc (insert_by_date t l).
Proof.
  induction 1 as [|p r Hs IH Hp]; cbn [insert_by_date].
  - constructor; constructor.
  - destruct (t_date p <=? t_date t) eqn:E.
    + apply Z.leb_le in E. constructor; [constructor; assumption|].
      constructor; [exact E|].
      eapply List.Forall_impl; [|exact Hp]. unfold by_date_desc. cbn beta. intros x Hx. lia.
    + apply Z.leb_gt in E. constructor; [exact IH|].
      apply List.Forall_forall. intros x Hx.
      apply (Permutation_in _ (insert_by_date_perm t r)) in Hx as [<-|Hx].
      * unfold by_date_desc. lia.
      * exact (proj1 (List.Forall_forall _ _) Hp x Hx).
Qed.

Lemma order_by_date_desc_sorted l : StronglySorted by_date_desc (order_by_date_desc l).
Proof.
  induction l as [|t l IH]; cbn [order_by_date_desc fold_right]; [constructor|].
  apply insert_by_date_sorted, IH.
Qed.

(** X28. For a logged-in user, the movements page never fails: it either
    shows an account with the requested key that belongs to the user,
    together with exactly the ledger rows of that account, newest first, or
    it answers 404, and then no account with that key belongs to the
    user. *)
Theorem movimientos_shows_one_own_account account_id w user :
  truthy (s_user_id (session w)) <> None ->
  User_get (db w) (s_user_id (session w)) = Some user ->
  match movimientos account_id w with
  | Shown page =>
      mv_user page = user /\
      In (mv_account page) (accounts (db w)) /\
      a_id (mv_account page) = account_id /\
      a_user_id (mv_account page) = u_id user /\
      Permutation (mv_txs page) (txs_of (db w) account_id) /\
      StronglySorted by_date_desc (mv_txs page)
  | Answered r =>
      r = (None, Abort404) /\
      forall a, In a (accounts (db w)) -> a_id a = account_id -> a_user_id a <> u_id user
  | Crash => False
  end.
Proof.
  intros Hin Hu. unfold movimientos, login_required_view.
  destruct (truthy (s_user_id (session w))); [|contradiction]. rewrite Hu.
  unfold Account_by_key_user.
  destruct (List.find _ (accounts (db w))) as [a|] eqn:Hf.
  - apply find_some in Hf as [Ha Hk]. apply andb_true_iff in Hk as [Hk Ho].
    apply Z.eqb_eq in Hk, Ho. cbn [mv_user mv_account mv_txs].
    repeat (split; [assumption || reflexivity|]). split.
    + rewrite order_by_date_desc_perm. unfold txs_of. rewrite Hk. reflexivity.
    + apply order_by_date_desc_sorted.
  - split; [reflexivity|]. intros a Ha Hk Ho.
    pose proof (find_none _ _ Hf a Ha) as Hn. cbn beta in Hn.
    rewrite Hk, Ho, !Z.eqb_refl in Hn. discriminate.
Qed.

(** Ana asks for the movements of her account A. *)
Lemma movimientos_shows_one_own_account_witness :
  match movimientos 1 base with
  | Shown page =>
      mv_user page = ana /\
      In (mv_account page) (accounts (db base)) /\
      a_id (mv_account page) = 1 /\
      a_user_id (mv_account page) = u_id ana /\
      Permutation (mv_txs page) (txs_of (db base) 1) /\
      StronglySorted by_date_desc (mv_txs page)
  | Answered r =>
      r = (None, Abort404) /\
      forall a, In a (accounts (db base)) -> a_id a = 1 -> a_user_id a <> u_id ana
  | Crash => False
  end.
Proof.
  apply (movimientos_shows_one_own_account 1 base ana).
  - vm_compute. discriminate.
  - vm_compute. reflexivity.
Defined.

(** X29. For a logged-in user, the dashboard and the management page show
    the same accounts: exactly the accounts of the user, none of another
    user, with a total equal to the sum of their balances; the management
    page adds the list of bank types, and every template is told that the
    user is authenticated. *)
Theorem accounts_pages_show_own_accounts w user :
  truthy (s_user_id (session w)) <> None ->
  User_get (db w) (s_user_id (session w)) = Some user ->
  exists accs total,
    dashboard w = Shown (mkAccountsPage user accs total []) /\
    gestion w = Shown (mkAccountsPage user accs total BANK_TYPES) /\
    (forall a, In a accs <-> In a (accounts (db w)) /\ a_user_id a = u_id user) /\
    (total == sum_over a_balance accs)%Q /\
    inject_user w = (Some user, true).
Proof.
  intros Hin Hu. unfold dashboard, gestion, login_required_view, inject_user.
  destruct (truthy (s_user_id (session w))) eqn:Ht; [|contradiction]. rewrite Hu.
  eexists _, _. split; [reflexivity|]. split; [reflexivity|]. split; [|split].
  - intros a. unfold Account_all_of_user. rewrite filter_In, Z.eqb_eq. reflexivity.
  - apply total_balance_sum.
  - destruct (s_user_id (session w)); [|discriminate]. rewrite Hu. reflexivity.
Qed.

(** Ana opens her dashboard. *)
Lemma accounts_pages_show_own_accounts_witness :
  exists accs total,
    dashboard base = Shown (mkAccountsPage ana accs total []) /\
    gestion base = Shown (mkAccountsPage ana accs total BANK_TYPES) /\
    (forall a, In a accs <-> In a (accounts (db base)) /\ a_user_id a = u_id ana) /\
    (total == sum_over a_balance accs)%Q /\
    inject_user base = (Some ana, true).
Proof.
  apply (accounts_pages_show_own_accounts base ana).
  - vm_compute. discriminate.
  - vm_compute. reflexivity.
Defined.

(** ** Sessions and the users table *)

Lemma User_get_key d i u : User_get d (Some i) = Some u -> u_id u = i.
Proof. cbn [User_get]. intros H. apply find_some in H as [_ H]. lia. Qed.

Lemma users_kept_get d d' i u :
  users_kept d d' -> User_get d (Some i) = Some u -> exists u', User_get d' (Some i) = Some u'.
Proof.
  intros Hk Hu. pose proof (User_get_key _ _ _ Hu) as Hi.
  cbn [User_get] in *. apply find_some in Hu as [Hu _].
  destruct (Hk u Hu) as (u' & Hu' & Hid & _).
  destruct (List.find _ (users d')) as [x|] eqn:Hf; [eauto|].
  pose proof (find_none _ _ Hf u' Hu') as Hn. cbn beta in Hn. lia.
Qed.

Section Sessions.
Variable hash_password : string -> string.
Variable check_password : string -> string -> bool.
Variable confirm_email_token : datetime -> string -> option string.

(** A handler leaves the session's user as it is, logs the browser out, or
    logs in a user it has just read from the table. *)
Lemma handle_session e r w i :
  truthy (s_user_id (session
            (snd (handle hash_password check_password confirm_email_token e r w)))) = Some i ->
  truthy (s_user_id (session w)) = Some i \/ exists u, User_get (db w) (Some i) = Some u.
Proof.
  destruct r; cbn [handle].
  - unfold register. intros Hs. repeat case_match; cbn in Hs; try (left; congruence); auto.
  - unfold verify_email. intros Hs. repeat case_match; cbn in Hs; try (left; congruence); auto.
  - unfold login. intros Hs. repeat case_match; cbn in Hs; try (left; congruence); auto.
  - cbn. discriminate.
  - unfold verify_otp. intros Hs. repeat case_match; cbn in Hs; try (left; congruence); auto.
    right.
    match goal with Hu : User_get (db w) (Some ?j) = Some ?u |- _ =>
      rewrite (User_get_key _ _ _ Hu) in Hs; exists u;
      destruct (j =? 0); [discriminate|]; injection Hs as <-; exact Hu end.
  - unfold create_account, login_required, _start_operation_otp.
    intros Hs. repeat case_match; cbn in Hs; try (left; congruence); auto.
  - unfold transfer_internal, login_required, _start_operation_otp.
    intros Hs. repeat case_match; cbn in Hs; try (left; congruence); auto.
  - unfold transfer_external, login_required, _start_operation_otp.
    intros Hs. repeat case_match; cbn in Hs; try (left; congruence); auto.
  - unfold confirmar_operacion, login_required. intros Hs.
    repeat case_match; cbn [snd] in Hs; auto;
      try (rewrite (proj1 (proj2 (proj2 (execute_pending_frame _ _ _ _ _)))) in Hs);
      cbn in Hs; try (left; congruence); auto.
  - unfold cancelar_operacion, login_required. intros Hs. repeat case_match; cbn in Hs; try (left; congruence); auto.
  - unfold reenviar_otp_operacion, login_required.
    intros Hs. repeat case_match; cbn in Hs; try (left; congruence); auto.
Qed.

Lemma serve_sessions e client r sv :
  logged_in_users_exist sv ->
  logged_in_users_exist
    (snd (serve hash_password check_password confirm_email_token e client r sv)).
Proof.
  intros Hinv. unfold serve.
  pose proof (handle_writes hash_password check_password confirm_email_token e r
                (world_of sv client)) as Hw.
  pose proof (fun i => handle_session e r (world_of sv client) i) as Hs.
  unfold world_of in Hw, Hs.
  destruct (handle _ _ _ e r _) as [resp w']. cbn [snd] in *.
  apply db_writes_kept in Hw as (Hk & _). cbn [db] in Hk.
  intros c s i Hc Hi. cbn [sv_sessions sv_db] in *.
  destruct (decide (c = client)) as [->|Hne].
  - rewrite lookup_insert_eq in Hc. injection Hc as <-.
    destruct (Hs i Hi) as [Hold|[u Hu]].
    + cbn [session] in Hold.
      destruct (sv_sessions sv !! client) as [s0|] eqn:E; cbn [default] in Hold.
      * destruct (Hinv client s0 i E Hold) as [u Hu]. eapply users_kept_get; eauto.
      * discriminate.
    + cbn [db] in Hu. eapply users_kept_get; eauto.
  - rewrite lookup_insert_ne in Hc by congruence.
    destruct (Hinv c s i Hc Hi) as [u Hu]. eapply users_kept_get; eauto.
Qed.

Lemma run_sessions reqs sv :
  logged_in_users_exist sv ->
  logged_in_users_exist (run hash_password check_password confirm_email_token reqs sv).
Proof.
  revert sv. induction reqs as [|[[e client] r] reqs IH]; intros sv Hinv; [exact Hinv|].
  cbn [run]. apply IH, serve_sessions, Hinv.
Qed.

(** X30. Whatever requests the browsers have sent since the server
    started empty, a session that is logged in names a row of the users
    table; so the dashboard and the management page, which read that row
    without a check, never fail for any browser. *)
Theorem logged_in_session_has_its_user reqs client :
  let sv := run hash_password check_password confirm_email_token reqs empty_server in
  logged_in_users_exist sv /\
  dashboard (world_of sv client) <> Crash /\
  gestion (world_of sv client) <> Crash.
Proof.
  intros sv.
  assert (Hinv : logged_in_users_exist sv).
  { apply run_sessions. intros c s i Hc. unfold empty_server in Hc.
    cbn [sv_sessions] in Hc. rewrite lookup_empty in Hc. discriminate. }
  split; [exact Hinv|].
  unfold dashboard, gestion, login_required_view, world_of. cbn [session db].
  destruct (sv_sessions sv !! client) as [s|] eqn:E; cbn [from_option id].
  - destruct (truthy (s_user_id s)) as [i|] eqn:Ht; [|split; discriminate].
    destruct (Hinv client s i E Ht) as [u Hu].
    assert (Hi : s_user_id s = Some i).
    { destruct (s_user_id s) as [j|]; [|discriminate]. cbn in Ht.
      destruct (j =? 0); [discriminate|]. exact Ht. }
    rewrite Hi, Hu. split; discriminate.
  - cbn. split; discriminate.
Qed.

End Sessions.
